(** * BrainPath frontend: a shallow embedding of the page controllers

    The React function components of [frontend/src] are embedded as pure
    functions over explicit component state.  A render is a function of the
    state held by the [useState] cells; an event handler is a function of the
    render it was created in (the values it closed over) that returns the
    state updates it requests together with the effects it performs (toasts,
    navigations, HTTP requests).  An [async] handler is split at its [await]:
    the part before it, and the part that runs once the request has settled,
    which still sees the values of the render it was started from. *)

From Stdlib Require Import ZArith NArith List String Ascii Bool Lia.
From Stdlib Require Import DecimalString.
From Stdlib Require Import Floats.SpecFloat.
From stdpp Require Import gmap strings list.

Local Open Scope string_scope.
Local Open Scope list_scope.

(* ===================================================================== *)
(** * JavaScript values used by the pages *)
(* ===================================================================== *)

Module JS.

(** A JavaScript string is a sequence of UTF-16 code units. *)
Definition code_unit := N.
Definition jsstring := list code_unit.

(** A string literal of the source (all of them are ASCII). *)
Definition lit (s : string) : jsstring :=
  List.map N_of_ascii (list_ascii_of_string s).

(** [!s] is true exactly for the empty string. *)
Definition truthy_str (s : jsstring) : bool :=
  match s with
  | [] => false
  | _ :: _ => true
  end.

(** ECMAScript WhiteSpace and LineTerminator code points, the characters
    [String.prototype.trim] removes: TAB, LF, VT, FF, CR, SP, NBSP,
    U+1680, U+2000..U+200A, U+2028, U+2029, U+202F, U+205F, U+3000 and
    U+FEFF. *)
Definition isStrWhiteSpaceChar (c : code_unit) : bool :=
  ((9 <=? c) && (c <=? 13) ||
   (c =? 32) || (c =? 160) || (c =? 5760) ||
   (8192 <=? c) && (c <=? 8202) ||
   (c =? 8232) || (c =? 8233) || (c =? 8239) || (c =? 8287) ||
   (c =? 12288) || (c =? 65279))%N.

Fixpoint trimStart (s : jsstring) : jsstring :=
  match s with
  | [] => []
  | c :: r => if isStrWhiteSpaceChar c then trimStart r else s
  end.

Definition trimEnd (s : jsstring) : jsstring :=
  rev (trimStart (rev s)).

(** [s.trim()] *)
Definition trim (s : jsstring) : jsstring := trimEnd (trimStart s).

(** A value that is [undefined] (property absent), [null], or a value. *)
Inductive nullable (A : Type) : Type :=
| undefined
| null
| val (a : A).
Arguments undefined {A}.
Arguments null {A}.
Arguments val {A} a.

#[global] Instance nullable_eq_dec {A} `{EqDecision A} :
  EqDecision (nullable A).
Proof. solve_decision. Defined.

(** ToBoolean of a possibly missing value: [undefined] and [null] are
    falsy, a present value is judged by [t]. *)
Definition truthy {A} (t : A -> bool) (x : nullable A) : bool :=
  match x with
  | val a => t a
  | undefined | null => false
  end.

(** Result of [localStorage.getItem(key)]. *)
Definition of_getItem {A} (x : option A) : nullable A :=
  match x with
  | Some a => val a
  | None => null
  end.

(** [!s] for a string of ASCII identifiers (tokens, select values). *)
Definition truthy_string (s : string) : bool :=
  negb (String.eqb s "").

(** ** Numbers: IEEE 754 binary64 *)

Definition prec : Z := 53.
Definition emax : Z := 1024.
Definition number := spec_float.

Definition num_of_Z (z : Z) : number := binary_normalize prec emax z 0 false.

(** [a / b] and [a > b] on numbers, and [a <= b], used to word the
    specification. *)
Definition div (a b : number) : number := SFdiv prec emax a b.
Definition gt (a b : number) : bool := SFltb b a.
Definition le (a b : number) : bool := SFleb a b.

(** ToBoolean on a number: [+0], [-0] and [NaN] are falsy. *)
Definition truthy_num (x : number) : bool :=
  match x with
  | S754_zero _ | S754_nan => false
  | S754_infinity _ | S754_finite _ _ _ => true
  end.

Definition is_zero (x : number) : bool :=
  match x with
  | S754_zero _ => true
  | _ => false
  end.

Definition is_nan (x : number) : bool :=
  match x with
  | S754_nan => true
  | _ => false
  end.

(** The numeric literals of the source. *)
Definition num_1 : number := Eval vm_compute in num_of_Z 1.
Definition num_60 : number := Eval vm_compute in num_of_Z 60.
Definition num_1000 : number := Eval vm_compute in num_of_Z 1000.
Definition num_1_5 : number :=
  Eval vm_compute in div (num_of_Z 3) (num_of_Z 2).

(** Decimal rendering of a counter inside JSX text or a template string. *)
Definition nat_toString (n : nat) : string :=
  NilEmpty.string_of_uint (Nat.to_uint n).

End JS.

Import JS.

(* ===================================================================== *)
(** * Data exchanged with the backend and effects performed by handlers *)
(* ===================================================================== *)

(** The user profile returned by the authentication endpoints. *)
Record User := {
  user_email : jsstring;
  user_education_level : string;
  user_sub_level : option string;
  user_board : option string
}.

(** Question records as returned by the question generation endpoint. *)
Record Question := {
  id : string;
  type : string;
  question : jsstring;
  options : option (list jsstring);
  expected_time : nullable number
}.

(** State carried by [navigate(path, { state })]. *)
Inductive nav_state :=
| LearnState (topic : jsstring) (technique : string)
| AssessState (sessionId : nullable string) (questions : list Question)
              (topic : jsstring) (technique : string).

(** Requests sent with axios.  [bearer] is the value read from
    [localStorage.getItem('token')] for the Authorization header. *)
Inductive request :=
| PostLogin (email password : jsstring)
| PostSignup (email password : jsstring) (education_level : string)
             (sub_level board : option string)
| PostGenerateContent (bearer : nullable string)
                      (topic : jsstring) (technique : string)
| PostEvaluateAnswer (bearer : nullable string)
                     (session_id : nullable string) (question_id : string)
                     (answer : jsstring) (time_taken : number).

Definition request_path (r : request) : string :=
  match r with
  | PostLogin _ _ => "/api/auth/login"
  | PostSignup _ _ _ _ _ => "/api/auth/signup"
  | PostGenerateContent _ _ _ => "/api/learning/generate-content"
  | PostEvaluateAnswer _ _ _ _ _ => "/api/learning/evaluate-answer"
  end.

Inductive toast_kind := ToastSuccess | ToastError | ToastInfo.

(** The icons passed to the feedback toast. *)
Inductive toast_icon := IconCheckMark | IconCrossMark.

Record toast_opts := {
  icon : option toast_icon;
  duration : option nat
}.

Definition no_opts : toast_opts := {| icon := None; duration := None |}.

Inductive effect :=
| Toast (k : toast_kind) (msg : jsstring) (opts : toast_opts)
| Navigate (path : string) (st : option nav_state)
| Http (r : request)
| OnLogin (token : nullable string) (user : nullable User).

Definition is_http (e : effect) : bool :=
  match e with Http _ => true | _ => false end.

Definition is_navigate (e : effect) : bool :=
  match e with Navigate _ _ => true | _ => false end.

Definition is_error_toast (e : effect) : bool :=
  match e with Toast ToastError _ _ => true | _ => false end.

(* ===================================================================== *)
(** * App.js: the session store and the route guard *)
(* ===================================================================== *)

Module App.

(** The two keys of [localStorage] the application uses.  The user is
    stored as [JSON.stringify(user)] and read back with [JSON.parse];
    the stored text is represented by the profile it denotes. *)
Record Storage := {
  item_token : option string;
  item_user : option User
}.

Definition clear : Storage := {| item_token := None; item_user := None |}.

(** The two [useState] cells of [App]. *)
Record State := {
  token : nullable string;
  user : nullable User
}.

Definition truthy_token (t : nullable string) : bool :=
  truthy truthy_string t.
Definition truthy_user (u : nullable User) : bool :=
  truthy (fun _ => true) u.

(** Initial values of the cells:
    [localStorage.getItem('token')] and
    [JSON.parse(localStorage.getItem('user') || 'null')]. *)
Definition initial (ls : Storage) : State :=
  {| token := of_getItem (item_token ls);
     user := of_getItem (item_user ls) |}.

(** The effect with dependency [[token]]. *)
Definition token_effect (st : State) (ls : Storage) : Storage :=
  match token st with
  | val t =>
      if truthy_string t
      then {| item_token := Some t; item_user := item_user ls |}
      else {| item_token := None; item_user := item_user ls |}
  | undefined | null => {| item_token := None; item_user := item_user ls |}
  end.

(** The effect with dependency [[user]]. *)
Definition user_effect (st : State) (ls : Storage) : Storage :=
  match user st with
  | val u => {| item_token := item_token ls; item_user := Some u |}
  | undefined | null => {| item_token := item_token ls; item_user := None |}
  end.

(** Both effects run after the first render. *)
Definition mount_effects (st : State) (ls : Storage) : Storage :=
  user_effect st (token_effect st ls).

(** [Object.is] on the [user] cell: the profile object of a response is
    a fresh object, identical to no earlier one. *)
Definition same_user (prev next : nullable User) : bool :=
  match prev, next with
  | undefined, undefined | null, null => true
  | _, _ => false
  end.

(** After a later render an effect runs when its dependency changed. *)
Definition update_effects (prev st : State) (ls : Storage) : Storage :=
  let ls1 := if decide (token prev = token st) then ls
             else token_effect st ls in
  if same_user (user prev) (user st) then ls1 else user_effect st ls1.

(** [handleLogin]: the two updates are batched and applied in one
    render (the specification has token and user stored atomically). *)
Definition handleLogin (newToken : nullable string)
           (newUser : nullable User) (st : State) : State :=
  {| token := newToken; user := newUser |}.

(** [handleLogout]: both cells are reset and the storage is cleared
    inside the handler. *)
Definition handleLogout (st : State) (ls : Storage) : State * Storage :=
  ({| token := null; user := null |}, clear).

Record World := {
  state : State;
  storage : Storage
}.

(** The application is opened in a browser whose storage is [ls]. *)
Definition open (ls : Storage) : World :=
  let st := initial ls in
  {| state := st; storage := mount_effects st ls |}.

Inductive event :=
| Login (newToken : nullable string) (newUser : nullable User)
| Logout
| Reload.

Definition step (w : World) (ev : event) : World :=
  match ev with
  | Login t u =>
      let st := handleLogin t u (state w) in
      {| state := st; storage := update_effects (state w) st (storage w) |}
  | Logout =>
      let '(st, ls) := handleLogout (state w) (storage w) in
      {| state := st; storage := update_effects (state w) st ls |}
  | Reload => open (storage w)
  end.

Definition run (w : World) (evs : list event) : World :=
  fold_left step evs w.

(** What a route renders. *)
Inductive element :=
| LandingPage
| AuthPage
| Page (name : string) (user : nullable User)
| NavigateTo (path : string)
| NoMatch.

Definition route (st : State) (path : string) : element :=
  if String.eqb path "/" then LandingPage
  else if String.eqb path "/auth" then
    if truthy_token (token st) then NavigateTo "/dashboard" else AuthPage
  else if String.eqb path "/dashboard" then
    if truthy_token (token st) then Page "Dashboard" (user st)
    else NavigateTo "/auth"
  else if String.eqb path "/learn" then
    if truthy_token (token st) then Page "LearningPage" (user st)
    else NavigateTo "/auth"
  else if String.eqb path "/assess" then
    if truthy_token (token st) then Page "AssessmentPage" (user st)
    else NavigateTo "/auth"
  else if String.eqb path "/performance" then
    if truthy_token (token st) then Page "PerformancePage" (user st)
    else NavigateTo "/auth"
  else NoMatch.

End App.

(* ===================================================================== *)
(** * pages/AuthPage.js *)
(* ===================================================================== *)

Module AuthPage.

Record Form := {
  isLogin : bool;
  loading : bool;
  email : jsstring;
  password : jsstring;
  educationLevel : string;
  subLevel : string;
  board : string;
  showSubLevel : bool
}.

Definition initial : Form :=
  {| isLogin := false; loading := false; email := []; password := [];
     educationLevel := ""; subLevel := ""; board := "";
     showSubLevel := false |}.

Definition setLoading (b : bool) (f : Form) : Form :=
  {| isLogin := isLogin f; loading := b; email := email f;
     password := password f; educationLevel := educationLevel f;
     subLevel := subLevel f; board := board f;
     showSubLevel := showSubLevel f |}.

Definition handleEducationChange (value : string) (f : Form) : Form :=
  let school := String.eqb value "school" in
  {| isLogin := isLogin f; loading := loading f; email := email f;
     password := password f; educationLevel := value;
     subLevel := if school then subLevel f else "";
     board := if school then board f else "";
     showSubLevel := school |}.

(** [x || null] on a select value. *)
Definition or_null (s : string) : option string :=
  if truthy_string s then Some s else None.

(** [handleSubmit] up to its [await]: the form after the requested
    updates and the effects performed.  A request among the effects
    means the handler is suspended on it. *)
Definition handleSubmit (f : Form) : Form * list effect :=
  let f1 := setLoading true f in
  if isLogin f then
    (f1, [Http (PostLogin (email f) (password f))])
  else if negb (truthy_string (educationLevel f)) then
    (setLoading false (setLoading false f1),
     [Toast ToastError (lit "Please select your education level") no_opts])
  else if String.eqb (educationLevel f) "school"
          && (negb (truthy_string (subLevel f))
              || negb (truthy_string (board f))) then
    (setLoading false (setLoading false f1),
     [Toast ToastError (lit "Please complete school details") no_opts])
  else
    (f1, [Http (PostSignup (email f) (password f) (educationLevel f)
                           (or_null (subLevel f)) (or_null (board f)))]).

(** Outcome of the authentication request: the response body, or the
    rejection with [error.response?.data?.detail]. *)
Inductive reply :=
| Fulfilled (token : nullable string) (user : nullable User)
| Rejected (detail : nullable jsstring).

(** [handleSubmit] after its [await]. *)
Definition handleSubmit_settled (f : Form) (r : reply) : Form * list effect :=
  match r with
  | Fulfilled t u =>
      (setLoading false f,
       [Toast ToastSuccess
          (lit (if isLogin f then "Login successful!"
                else "Account created successfully!")) no_opts;
        OnLogin t u;
        Navigate "/dashboard" None])
  | Rejected detail =>
      (setLoading false f,
       [Toast ToastError
          (match detail with
           | val d => if truthy_str d then d else lit "Authentication failed"
           | undefined | null => lit "Authentication failed"
           end) no_opts])
  end.

End AuthPage.

(* ===================================================================== *)
(** * pages/Dashboard.js *)
(* ===================================================================== *)

Module Dashboard.

(** [startLearning(technique)], with [topic] the value of the topic field
    in the render the button belongs to. *)
Definition startLearning (topic : jsstring) (technique : string)
  : list effect :=
  if negb (truthy_str (trim topic)) then
    [Toast ToastError (lit "Please enter a topic to learn") no_opts]
  else
    [Navigate "/learn" (Some (LearnState topic technique))].

End Dashboard.

(* ===================================================================== *)
(** * pages/LearningPage.js *)
(* ===================================================================== *)

Module LearningPage.

(** [location.state]: the object passed to [navigate], [None] when the
    page is reached without one (direct URL, reload). *)
Record location_state := {
  topic : nullable jsstring;
  technique : nullable string
}.

(** [const { topic, technique } = location.state || {}] *)
Definition destructure (st : option location_state)
  : nullable jsstring * nullable string :=
  match st with
  | Some s => (topic s, technique s)
  | None => (undefined, undefined)
  end.

(** [generateContent] up to its [await]: the new value of the
    [loading] cell and the effects. *)
Definition generateContent (bearer : nullable string)
           (topic : jsstring) (technique : string) : bool * list effect :=
  (true, [Http (PostGenerateContent bearer topic technique)]).

(** The effect run on mount, from the initial render where [loading]
    is [true]. *)
Definition mount_effect (bearer : nullable string)
           (st : option location_state) : bool * list effect :=
  match destructure st with
  | (val topic, val technique) =>
      if negb (truthy_str topic) || negb (truthy_string technique)
      then (true, [Navigate "/dashboard" None])
      else generateContent bearer topic technique
  | _ => (true, [Navigate "/dashboard" None])
  end.

End LearningPage.

(* ===================================================================== *)
(** * pages/AssessmentPage.js *)
(* ===================================================================== *)

Module AssessmentPage.

(** The body of a fulfilled evaluate-answer response. *)
Record EvalResponse := {
  is_correct : bool;
  feedback : jsstring
}.

(** What is fixed during a visit of the page: the values destructured
    from [location.state || {}] and the token in [localStorage]. *)
Record Env := {
  sessionId : nullable string;
  questions : nullable (list Question);
  bearer : nullable string
}.

(** The [useState] cells.  [answers] is a plain object keyed by question
    id: the map holds its own properties, which are the strings the
    inputs passed to [handleAnswerChange]; what a read of a key that is
    not an own property gives is [get] below.  [startTime] is a
    [Date.now()] value in milliseconds; [score] counts up from 0 in steps
    of 1. *)
Record State := {
  currentIndex : nat;
  answers : gmap string jsstring;
  results : list EvalResponse;
  timer : number;
  startTime : Z;
  completed : bool;
  score : nat
}.

Definition initial (now : Z) : State :=
  {| currentIndex := 0; answers := ∅; results := [];
     timer := num_of_Z 0; startTime := now; completed := false;
     score := 0 |}.

Definition setCurrentIndex (v : nat) (s : State) : State :=
  {| currentIndex := v; answers := answers s; results := results s;
     timer := timer s; startTime := startTime s;
     completed := completed s; score := score s |}.
Definition setAnswers (v : gmap string jsstring) (s : State) : State :=
  {| currentIndex := currentIndex s; answers := v; results := results s;
     timer := timer s; startTime := startTime s;
     completed := completed s; score := score s |}.
Definition setResults (v : list EvalResponse) (s : State) : State :=
  {| currentIndex := currentIndex s; answers := answers s; results := v;
     timer := timer s; startTime := startTime s;
     completed := completed s; score := score s |}.
Definition setTimer (v : number) (s : State) : State :=
  {| currentIndex := currentIndex s; answers := answers s;
     results := results s; timer := v; startTime := startTime s;
     completed := completed s; score := score s |}.
Definition setStartTime (v : Z) (s : State) : State :=
  {| currentIndex := currentIndex s; answers := answers s;
     results := results s; timer := timer s; startTime := v;
     completed := completed s; score := score s |}.
Definition setCompleted (v : bool) (s : State) : State :=
  {| currentIndex := currentIndex s; answers := answers s;
     results := results s; timer := timer s; startTime := startTime s;
     completed := v; score := score s |}.
Definition setScore (v : nat) (s : State) : State :=
  {| currentIndex := currentIndex s; answers := answers s;
     results := results s; timer := timer s; startTime := startTime s;
     completed := completed s; score := v |}.

(** [!sessionId || !questions]; an array is truthy. *)
Definition missing_state (env : Env) : bool :=
  negb (truthy truthy_string (sessionId env))
  || negb (truthy (fun _ => true) (questions env)).

(** The effect run on mount: redirect, or start the interval. *)
Definition mount_effect (env : Env) : list effect :=
  if missing_state env then [Navigate "/dashboard" None] else [].

(** The interval callback, with the clock reading [now]. *)
Definition tick (now : Z) (s : State) : State :=
  setTimer (div (num_of_Z (now - startTime s)) num_1000) s.

(** [questions?.[currentIndex]] *)
Definition currentQuestion (env : Env) (s : State) : option Question :=
  match questions env with
  | val qs => qs !! currentIndex s
  | undefined | null => None
  end.

(** [x || 60] *)
Definition or_60 (x : nullable number) : number :=
  match x with
  | val n => if truthy_num n then n else num_60
  | undefined | null => num_60
  end.

(** [currentQuestion?.expected_time || 60] *)
Definition expectedTime (env : Env) (s : State) : number :=
  match currentQuestion env s with
  | Some q => or_60 (expected_time q)
  | None => num_60
  end.

Definition timeRatio (env : Env) (s : State) : number :=
  div (timer s) (expectedTime env s).

(** The class of the timer: ['timer-danger'], ['timer-warning'] or the
    plain text colour. *)
Inductive timer_class := TimerNormal | TimerWarning | TimerDanger.

Definition timerClass (ratio : number) : timer_class :=
  if gt ratio num_1_5 then TimerDanger
  else if gt ratio num_1 then TimerWarning
  else TimerNormal.

Inductive result_icon := CheckCircle | XCircle.

Inductive view :=
| LoadingQuestions
| ResultsCard (ic : result_icon) (score_text : jsstring)
              (message : jsstring)
| QuestionCard (position total : nat) (cls : timer_class) (q : Question)
               (value : jsstring) (expected : number)
| RenderError.

(** The names of the properties every plain object inherits from
    [Object.prototype]. *)
Definition Object_prototype_names : list string :=
  ["constructor"; "__defineGetter__"; "__defineSetter__"; "hasOwnProperty";
   "__lookupGetter__"; "__lookupSetter__"; "isPrototypeOf";
   "propertyIsEnumerable"; "toString"; "valueOf"; "__proto__";
   "toLocaleString"].

Definition inherited (k : string) : bool :=
  existsb (String.eqb k) Object_prototype_names.

(** [answers[k]]: the own property when there is one; otherwise the read
    goes up the prototype chain and gives the member of
    [Object.prototype] of that name, which is a function (the prototype
    object itself for [__proto__]); otherwise [undefined]. *)
Inductive property :=
| own (a : jsstring)
| prototype_member
| absent.

Definition get (o : gmap string jsstring) (k : string) : property :=
  match o !! k with
  | Some a => own a
  | None => if inherited k then prototype_member else absent
  end.

(** [answers[currentQuestion.id] || ''] as the input shows it: a value
    that is a function or an object is shown as the empty text. *)
Definition shown_value (s : State) (q : Question) : jsstring :=
  match get (answers s) (id q) with
  | own a => a
  | prototype_member | absent => []
  end.

Definition render (env : Env) (s : State) : view :=
  match questions env with
  | val ((_ :: _) as qs) =>
      if completed s then
        ResultsCard
          (if (4 <=? score s)%nat then CheckCircle else XCircle)
          (lit (String.append (nat_toString (score s)) "/6"))
          (lit (if (4 <=? score s)%nat
                then "Excellent work! You can move to the next topic."
                else "Good effort! Try another technique to improve your understanding."))
      else
        match currentQuestion env s with
        | Some q =>
            QuestionCard (currentIndex s + 1) (length qs)
                         (timerClass (timeRatio env s)) q
                         (shown_value s q) (expectedTime env s)
        | None => RenderError
        end
  | _ => LoadingQuestions
  end.

(** [handleAnswerChange(value)], called from a rendered question card. *)
Definition handleAnswerChange (q : Question) (value : jsstring)
           (s : State) : State :=
  setAnswers (<[id q := value]> (answers s)) s.

(** [submitAnswer] up to its [await]: it returns after an error toast
    when [!answer || answer.trim() === ''], or it is suspended on the
    request it sent, or it throws.  It is called from a rendered question
    card, whose question is [q].

    A member of [Object.prototype] is truthy and has no [trim]: the call
    [answer.trim()] throws a [TypeError].  The guard is outside the
    [try], so the promise of the handler is rejected, and nothing
    handles it: no toast is shown. *)
Inductive started :=
| Returned (effs : list effect)
| Awaiting (req : request)
| Thrown.

Definition submitAnswer (env : Env) (q : Question) (s : State) : started :=
  match get (answers s) (id q) with
  | own answer =>
      if negb (truthy_str answer) || negb (truthy_str (trim answer)) then
        Returned [Toast ToastError (lit "Please provide an answer") no_opts]
      else
        Awaiting (PostEvaluateAnswer (bearer env) (sessionId env) (id q)
                                     answer (timer s))
  | prototype_member => Thrown
  | absent =>
      Returned [Toast ToastError (lit "Please provide an answer") no_opts]
  end.

(** [submitAnswer] after its [await].  [c] is the render the handler
    was started from: [results], [score] and [currentIndex] are the
    values it closed over.  [cur] is the state the requested updates
    are applied to, [now] the clock, and [reply] the response body, or
    [None] when the request was rejected. *)
Definition submitAnswer_settled (env : Env) (c : State) (now : Z)
           (reply : option EvalResponse) (cur : State)
  : State * list effect :=
  match reply with
  | None =>
      (cur, [Toast ToastError (lit "Failed to submit answer") no_opts])
  | Some data =>
      let s1 := setResults (results c ++ [data]) cur in
      let s2 := if is_correct data then setScore (score c + 1) s1 else s1 in
      let feedback_toast :=
        Toast ToastSuccess (feedback data)
              {| icon := Some (if is_correct data then IconCheckMark
                               else IconCrossMark);
                 duration := None |} in
      match questions env with
      | val qs =>
          if (Z.of_nat (currentIndex c) <? Z.of_nat (length qs) - 1)%Z then
            (setStartTime now
               (setTimer (num_of_Z 0)
                  (setCurrentIndex (currentIndex c + 1) s2)),
             [feedback_toast])
          else
            (setCompleted true s2, [feedback_toast])
      | undefined | null =>
          (s2, [feedback_toast;
                Toast ToastError (lit "Failed to submit answer") no_opts])
      end
  end.

(** [finishAssessment] *)
Definition finishAssessment (s : State) : list effect :=
  let passed := (4 <=? score s)%nat in
  [ (if passed then
       Toast ToastSuccess
         (lit (String.append "Great job! You scored "
                (String.append (nat_toString (score s))
                   "/6. You can skip the remaining techniques!")))
         {| icon := None; duration := Some 5000%nat |}
     else
       Toast ToastInfo
         (lit (String.append "You scored "
                (String.append (nat_toString (score s))
                   "/6. Try another learning technique to improve!")))
         {| icon := None; duration := Some 5000%nat |});
    Navigate "/dashboard" None ].

(** ** A visit of the page as a transition system

    A configuration holds the current state, the requests in flight,
    each with the render its handler was started from, the effects
    performed so far, and whether the page has been left; the state is
    gone with the page, and a visit is not followed beyond that point. *)
Record Pending := {
  sent : request;
  closure : State
}.

Record Config := {
  state : State;
  inflight : list Pending;
  log : list effect;
  left_page : bool
}.

Inductive event :=
| Tick (now : Z)
| Change (value : jsstring)
| Submit
| Settle (k : nat) (reply : option EvalResponse) (now : Z)
| Continue.

Definition has_navigate (effs : list effect) : bool :=
  existsb is_navigate effs.

(** The page is opened at clock reading [now]. *)
Definition start (env : Env) (now : Z) : Config :=
  {| state := initial now; inflight := [];
     log := mount_effect env;
     left_page := has_navigate (mount_effect env) |}.

Definition with_state (s : State) (c : Config) : Config :=
  {| state := s; inflight := inflight c; log := log c;
     left_page := left_page c |}.

Definition step (env : Env) (c : Config) (ev : event) : Config :=
  if left_page c then c else
  match ev with
  | Tick now => with_state (tick now (state c)) c
  | Change value =>
      match render env (state c) with
      | QuestionCard _ _ _ q _ _ =>
          with_state (handleAnswerChange q value (state c)) c
      | _ => c
      end
  | Submit =>
      match render env (state c) with
      | QuestionCard _ _ _ q _ _ =>
          match submitAnswer env q (state c) with
          | Returned effs =>
              {| state := state c; inflight := inflight c;
                 log := log c ++ effs; left_page := left_page c |}
          | Awaiting req =>
              {| state := state c;
                 inflight := inflight c ++
                             [{| sent := req; closure := state c |}];
                 log := log c ++ [Http req];
                 left_page := left_page c |}
          | Thrown => c
          end
      | _ => c
      end
  | Settle k reply now =>
      match inflight c !! k with
      | Some p =>
          let '(s', effs) :=
            submitAnswer_settled env (closure p) now reply (state c) in
          {| state := s'; inflight := delete k (inflight c);
             log := log c ++ effs; left_page := left_page c |}
      | None => c
      end
  | Continue =>
      match render env (state c) with
      | ResultsCard _ _ _ =>
          {| state := state c; inflight := inflight c;
             log := log c ++ finishAssessment (state c);
             left_page := true |}
      | _ => c
      end
  end.

Definition run (env : Env) (c : Config) (evs : list event) : Config :=
  fold_left (step env) evs c.

End AssessmentPage.

(* ===================================================================== *)
(** * Notions used to state the properties *)
(* ===================================================================== *)

(** A string all of whose code units are white space (the empty string
    included). *)
Definition whitespace_only (s : jsstring) : bool :=
  forallb isStrWhiteSpaceChar s.


(** A possibly missing value that is there. *)
Definition present {A} (x : nullable A) : bool :=
  match x with
  | val _ => true
  | undefined | null => false
  end.

(** The urgency buckets as the specification words them: at most 1.0 is
    normal, above 1.0 and at most 1.5 is warning, above 1.5 is danger.
    No bucket is named for a ratio that is not a number. *)
Definition urgency_spec (ratio : number)
  : option AssessmentPage.timer_class :=
  if le ratio num_1 then Some AssessmentPage.TimerNormal
  else if gt ratio num_1 && le ratio num_1_5
       then Some AssessmentPage.TimerWarning
  else if gt ratio num_1_5 then Some AssessmentPage.TimerDanger
  else None.

(** An [expected_time] field that is absent, [null] or zero. *)
Definition absent_null_or_zero (x : nullable number) : bool :=
  match x with
  | undefined | null => true
  | val n => is_zero n
  end.

(** A number that a JSON response can carry: finite. *)
Definition json_number (x : number) : bool :=
  match x with
  | S754_zero _ | S754_finite _ _ _ => true
  | S754_infinity _ | S754_nan => false
  end.

(** Every [expected_time] that is a number is one a JSON response can
    carry. *)
Definition json_times (env : AssessmentPage.Env) : bool :=
  match AssessmentPage.questions env with
  | val qs =>
      forallb (fun q => match expected_time q with
                        | val n => json_number n
                        | undefined | null => true
                        end) qs
  | undefined | null => true
  end.

(** What [localStorage] holds for a cell that is set. *)
Definition of_nullable {A} (x : nullable A) : option A :=
  match x with
  | val a => Some a
  | undefined | null => None
  end.

Module Session.
Import App.

(** Exactly the token, or exactly the user, is set. *)
Definition token_set (st : State) : bool := truthy_token (token st).
Definition user_set (st : State) : bool := truthy_user (user st).
Definition half_set (st : State) : bool :=
  xorb (token_set st) (user_set st).

Definition half_stored (ls : Storage) : bool :=
  xorb (bool_decide (is_Some (item_token ls)))
       (bool_decide (is_Some (item_user ls))).

(** What the two effects write for a state. *)
Definition persisted (st : State) : Storage := mount_effects st clear.

(** A storage as the application leaves it: a non-empty token and a
    user, or neither. *)
Definition well_stored (ls : Storage) : bool :=
  match item_token ls, item_user ls with
  | Some t, Some _ => truthy_string t
  | None, None => true
  | _, _ => false
  end.

(** The invariant of the store: the cells are set together and the
    storage holds what the effects write for them. *)
Definition coherent (w : World) : Prop :=
  half_set (state w) = false /\ storage w = persisted (state w).

(** The response of a successful login or signup carries a token and a
    user, as the API contract [{token, user}] has it. *)
Definition carries_both (ev : event) : bool :=
  match ev with
  | Login t u => truthy_token t && truthy_user u
  | Logout | Reload => true
  end.

End Session.

Module Quiz.
Import AssessmentPage.

Fixpoint count_correct (l : list EvalResponse) : nat :=
  match l with
  | [] => 0
  | r :: l' => (if is_correct r then 1 else 0) + count_correct l'
  end.

(** The response body an event delivers to a suspended [submitAnswer]:
    a fulfilled evaluation of a submitted answer. *)
Definition delivered (c : Config) (ev : event) : list EvalResponse :=
  if left_page c then [] else
  match ev with
  | Settle k (Some data) _ =>
      match inflight c !! k with
      | Some _ => [data]
      | None => []
      end
  | _ => []
  end.

(** The successful submissions of a run, in order. *)
Fixpoint evaluated (env : Env) (c : Config) (evs : list event)
  : list EvalResponse :=
  match evs with
  | [] => []
  | ev :: evs' => delivered c ev ++ evaluated env (step env c ev) evs'
  end.

(** At most one request is in flight after every event of the run: no
    answer is submitted while an earlier submission awaits its
    response. *)
Fixpoint one_at_a_time (env : Env) (c : Config) (evs : list event)
  : bool :=
  match evs with
  | [] => true
  | ev :: evs' =>
      (length (inflight (step env c ev)) <=? 1)%nat
      && one_at_a_time env (step env c ev) evs'
  end.

(** Every suspended [submitAnswer] was started from a render showing
    the current score and results, and at most one is suspended. *)
Definition up_to_date (c : Config) : Prop :=
  length (inflight c) <= 1 /\
  Forall (fun p => score (closure p) = score (state c) /\
                   results (closure p) = results (state c))
         (inflight c).

(** Answering one question: type [a], submit, receive [r] at [now]. *)
Definition answer_round (a : jsstring) (r : EvalResponse) (now : Z)
  : list event :=
  [Change a; Submit; Settle 0 (Some r) now].

Definition verdict (b : bool) : EvalResponse :=
  {| is_correct := b; feedback := lit (if b then "Correct" else "Wrong") |}.

(** A session in which every question is answered with [a] and the
    evaluation responses are [rs], in order. *)
Definition session (a : jsstring) (rs : list EvalResponse) : list event :=
  flat_map (fun r => answer_round a r 0) rs.

Definition verdicts (bs : list bool) : list EvalResponse :=
  List.map verdict bs.

Definition mk_question (i : string) : Question :=
  {| id := i; type := "short"; question := lit "?"; options := None;
     expected_time := val num_60 |}.

Definition env_of (qs : list Question) : Env :=
  {| sessionId := val "s1"; questions := val qs; bearer := val "tok" |}.

Definition two_questions : Env :=
  env_of [mk_question "q1"; mk_question "q2"].

Definition six_questions : Env :=
  env_of [mk_question "q1"; mk_question "q2"; mk_question "q3";
          mk_question "q4"; mk_question "q5"; mk_question "q6"].

End Quiz.

(* ===================================================================== *)
(** * pages/AuthPage.js: the form as a transition system *)
(* ===================================================================== *)

Module AuthFlow.
Import AuthPage.

Definition setEmail (v : jsstring) (f : Form) : Form :=
  {| isLogin := isLogin f; loading := loading f; email := v;
     password := password f; educationLevel := educationLevel f;
     subLevel := subLevel f; board := board f;
     showSubLevel := showSubLevel f |}.

Definition setPassword (v : jsstring) (f : Form) : Form :=
  {| isLogin := isLogin f; loading := loading f; email := email f;
     password := v; educationLevel := educationLevel f;
     subLevel := subLevel f; board := board f;
     showSubLevel := showSubLevel f |}.

Definition setSubLevel (v : string) (f : Form) : Form :=
  {| isLogin := isLogin f; loading := loading f; email := email f;
     password := password f; educationLevel := educationLevel f;
     subLevel := v; board := board f;
     showSubLevel := showSubLevel f |}.

Definition setBoard (v : string) (f : Form) : Form :=
  {| isLogin := isLogin f; loading := loading f; email := email f;
     password := password f; educationLevel := educationLevel f;
     subLevel := subLevel f; board := v;
     showSubLevel := showSubLevel f |}.

Definition setIsLogin (b : bool) (f : Form) : Form :=
  {| isLogin := b; loading := loading f; email := email f;
     password := password f; educationLevel := educationLevel f;
     subLevel := subLevel f; board := board f;
     showSubLevel := showSubLevel f |}.

(** A visit of the page: the form, the renders from which a suspended
    [handleSubmit] was started, the effects so far, and whether the page
    has been left. *)
Record Config := {
  form : Form;
  pending : list Form;
  log : list effect;
  left_page : bool
}.

(** What the user and the network can do.  The education select is
    rendered in signup mode only, the sub level and board selects only
    when [showSubLevel] holds as well; the submit button is disabled while
    [loading].  The validation the browser does on the required inputs
    can only hold a submission back and is left out: the system accepts
    at least the submissions the browser lets through. *)
Inductive event :=
| TypeEmail (v : jsstring)
| TypePassword (v : jsstring)
| SelectEducation (v : string)
| SelectSubLevel (v : string)
| SelectBoard (v : string)
| ToggleMode
| PressSubmit
| Settle (k : nat) (r : reply).

Definition start : Config :=
  {| form := initial; pending := []; log := []; left_page := false |}.

Definition with_form (f : Form) (c : Config) : Config :=
  {| form := f; pending := pending c; log := log c;
     left_page := left_page c |}.

Definition step (c : Config) (ev : event) : Config :=
  if left_page c then c else
  match ev with
  | TypeEmail v => with_form (setEmail v (form c)) c
  | TypePassword v => with_form (setPassword v (form c)) c
  | SelectEducation v =>
      if isLogin (form c) then c
      else with_form (handleEducationChange v (form c)) c
  | SelectSubLevel v =>
      if negb (isLogin (form c)) && showSubLevel (form c)
      then with_form (setSubLevel v (form c)) c else c
  | SelectBoard v =>
      if negb (isLogin (form c)) && showSubLevel (form c)
      then with_form (setBoard v (form c)) c else c
  | ToggleMode => with_form (setIsLogin (negb (isLogin (form c))) (form c)) c
  | PressSubmit =>
      if loading (form c) then c
      else
        let '(f', effs) := handleSubmit (form c) in
        {| form := f';
           pending := if existsb is_http effs then pending c ++ [form c]
                      else pending c;
           log := log c ++ effs;
           left_page := left_page c |}
  | Settle k r =>
      match pending c !! k with
      | Some closure =>
          let effs := snd (handleSubmit_settled closure r) in
          {| form := fst (handleSubmit_settled (form c) r);
             pending := delete k (pending c);
             log := log c ++ effs;
             left_page := existsb is_navigate effs |}
      | None => c
      end
  end.

Definition run (c : Config) (evs : list event) : Config :=
  fold_left step evs c.

(** The body of a signup request agrees with the education level: a
    level is given, the school details are there for ["school"] and
    [null] otherwise. *)
Definition signup_shape (e : effect) : Prop :=
  match e with
  | Http (PostSignup _ _ level sub brd) =>
      level <> "" /\
      (level = "school" -> is_Some sub /\ is_Some brd) /\
      (level <> "school" -> sub = None /\ brd = None)
  | _ => True
  end.

(** The form cells agree: the school selects are shown exactly for
    ["school"], and hold nothing for another level. *)
Definition form_consistent (f : Form) : Prop :=
  showSubLevel f = String.eqb (educationLevel f) "school" /\
  (educationLevel f <> "school" -> subLevel f = "" /\ board f = "").

(** Nothing is pending and the button is enabled, or one [handleSubmit]
    is suspended and the button is disabled. *)
Definition single_flight (c : Config) : Prop :=
  (pending c = [] /\ loading (form c) = false) \/
  (exists closure, pending c = [closure] /\ loading (form c) = true).

End AuthFlow.

(* ===================================================================== *)
(** * pages/LearningPage.js: from the content to the assessment *)
(* ===================================================================== *)

Module LearningFlow.

(** [content.content]: the text of a passage or the description of a
    flowchart, or the video object. *)
Inductive payload :=
| Text (s : jsstring)
| Video (videoId title description : jsstring).

(** The [content] field of the generate-questions request:
    [content.content] as it is, or [JSON.stringify(content.content)]. *)
Inductive sent_content :=
| AsIs (c : payload)
| Stringified (c : payload).

Inductive flow_request :=
| PostGenerateQuestions (bearer : nullable string) (topic : jsstring)
                        (content : sent_content) (technique : string)
                        (difficulty : nat)
| PostCreateSession (bearer : nullable string) (topic : jsstring)
                    (technique : string) (content : payload)
                    (questions : list Question).

Inductive action :=
| Perform (e : effect)
| Request (r : flow_request).

Definition is_request (a : action) : bool :=
  match a with Request _ => true | Perform _ => false end.

Definition is_create_session (a : action) : bool :=
  match a with Request (PostCreateSession _ _ _ _ _) => true | _ => false end.

Definition is_navigation (a : action) : bool :=
  match a with Perform (Navigate _ _) => true | _ => false end.

Definition is_failure_toast (a : action) : bool :=
  match a with Perform (Toast ToastError _ _) => true | _ => false end.

(** What is fixed during a visit that passed the guard. *)
Record Props := {
  topic : jsstring;
  technique : string;
  bearer : nullable string
}.

Definition contentStr (technique : string) (c : payload) : sent_content :=
  if String.eqb technique "passage" then AsIs c
  else if String.eqb technique "video" then Stringified c
  else AsIs c.

(** [proceedToQuestions] up to its first [await]; it is called from the
    rendered content card, whose content is [c]. *)
Definition proceedToQuestions (p : Props) (c : payload) : list action :=
  [Perform (Toast ToastInfo (lit "Generating questions...") no_opts);
   Request (PostGenerateQuestions (bearer p) (topic p)
              (contentStr (technique p) c) (technique p) 1)].

(** After the first [await]: [reply] is
    [questionsResponse.data.questions], or [None] when the request was
    rejected. *)
Definition questions_settled (p : Props) (c : payload)
           (reply : option (list Question)) : list action :=
  match reply with
  | Some qs =>
      [Request (PostCreateSession (bearer p) (topic p) (technique p) c qs)]
  | None =>
      [Perform (Toast ToastError (lit "Failed to generate questions")
                      no_opts)]
  end.

(** After the second [await]: [reply] is
    [sessionResponse.data.session_id], or [None] when the request was
    rejected. *)
Definition session_settled (p : Props) (qs : list Question)
           (reply : option (nullable string)) : list action :=
  match reply with
  | Some sid =>
      [Perform (Navigate "/assess"
                  (Some (AssessState sid qs (topic p) (technique p))))]
  | None =>
      [Perform (Toast ToastError (lit "Failed to generate questions")
                      no_opts)]
  end.

(** One press of the button, followed to its end with the outcomes of
    the two requests; the second outcome is consulted only when the first
    request was fulfilled. *)
Definition pressed (p : Props) (c : payload)
           (r1 : option (list Question))
           (r2 : option (nullable string)) : list action :=
  proceedToQuestions p c ++ questions_settled p c r1 ++
  match r1 with
  | Some qs => session_settled p qs r2
  | None => []
  end.

End LearningFlow.

(* ===================================================================== *)
(** * Navigation state as the next page reads it *)
(* ===================================================================== *)

Module Handoff.

(** [location.state] as [LearningPage] destructures it. *)
Definition learning_location (st : option nav_state)
  : option LearningPage.location_state :=
  match st with
  | Some (LearnState t k) | Some (AssessState _ _ t k) =>
      Some {| LearningPage.topic := val t; LearningPage.technique := val k |}
  | None => None
  end.


End Handoff.

(* ===================================================================== *)
(** * pages/PerformancePage.js *)
(* ===================================================================== *)

Module PerformancePage.

(** The fields of the two responses the page reads. *)
Record TechniqueData := {
  tech_accuracy : nullable number;
  tech_correct : nullable number;
  tech_total : nullable number
}.

Record Analytics := {
  avg_time_per_question : nullable number;
  technique_performance : nullable (list (string * TechniqueData));
  strengths : nullable (list jsstring);
  weaknesses : nullable (list jsstring)
}.

Record Progress := {
  accuracy : nullable number;
  completed_sessions : nullable number;
  total_questions : nullable number
}.

Record State := {
  analytics : nullable Analytics;
  progress : nullable Progress;
  loading : bool
}.

Definition initial : State :=
  {| analytics := null; progress := null; loading := true |}.

Inductive get_request :=
| GetAnalyticsDashboard (bearer : nullable string)
| GetProgress (bearer : nullable string).

(** [fetchData] up to its [await]: both requests are sent at once. *)
Definition fetchData (token : nullable string) : list get_request :=
  [GetAnalyticsDashboard token; GetProgress token].

(** [fetchData] after [await Promise.all(...)]: the two bodies when both
    requests were fulfilled, [None] as soon as one was rejected. *)
Definition fetchData_settled (joined : option (Analytics * Progress))
           (s : State) : State :=
  match joined with
  | Some (a, p) =>
      {| analytics := val a; progress := val p; loading := false |}
  | None =>
      {| analytics := analytics s; progress := progress s;
         loading := false |}
  end.

(** [Promise.all] on the outcomes of the two requests. *)
Definition promise_all (a : option Analytics) (p : option Progress)
  : option (Analytics * Progress) :=
  match a, p with
  | Some a', Some p' => Some (a', p')
  | _, _ => None
  end.

(** [x || 0] *)
Definition or_0 (x : nullable number) : number :=
  match x with
  | val n => if truthy_num n then n else num_of_Z 0
  | undefined | null => num_of_Z 0
  end.

(** [x ? Math.round(x) : 0]; the rounding is kept as a term. *)
Inductive rounded :=
| MathRound (x : number)
| Literal0.

Definition round_or_0 (x : nullable number) : rounded :=
  match x with
  | val n => if truthy_num n then MathRound n else Literal0
  | undefined | null => Literal0
  end.

(** [xs && xs.length > 0 ? list : placeholder] *)
Definition non_empty {A} (xs : nullable (list A)) : option (list A) :=
  match xs with
  | val (x :: l) => Some (x :: l)
  | val [] | undefined | null => None
  end.

(** [o?.field] *)
Definition field {A B} (o : nullable A) (f : A -> nullable B) : nullable B :=
  match o with
  | val a => f a
  | undefined | null => undefined
  end.

Inductive view :=
| LoadingAnalytics
| Board (accuracy_shown completed_shown : number) (avg_shown : rounded)
        (total_shown : number)
        (techniques : option (list (string * TechniqueData)))
        (strengths_shown weaknesses_shown : option (list jsstring)).

Definition render (s : State) : view :=
  if loading s then LoadingAnalytics
  else
    Board (or_0 (field (progress s) accuracy))
          (or_0 (field (progress s) completed_sessions))
          (round_or_0 (field (analytics s) avg_time_per_question))
          (or_0 (field (progress s) total_questions))
          (non_empty (field (analytics s) technique_performance))
          (non_empty (field (analytics s) strengths))
          (non_empty (field (analytics s) weaknesses)).

(** The view when nothing was fetched. *)
Definition empty_board : view :=
  Board (num_of_Z 0) (num_of_Z 0) Literal0 (num_of_Z 0) None None None.

End PerformancePage.

(* ===================================================================== *)
(** * Further notions used to state properties *)
(* ===================================================================== *)

(** The order of the timer classes by urgency. *)
Definition urgency_rank (c : AssessmentPage.timer_class) : nat :=
  match c with
  | AssessmentPage.TimerNormal => 0
  | AssessmentPage.TimerWarning => 1
  | AssessmentPage.TimerDanger => 2
  end.

(** A request the assessment page may send: an evaluation of a question
    of the list, with the session id and token of the page, an answer
    that is not blank and a time that is a number. *)
Definition evaluation_of (env : AssessmentPage.Env) (qs : list Question)
           (e : effect) : Prop :=
  match e with
  | Http (PostEvaluateAnswer tok sid qid a t) =>
      tok = AssessmentPage.bearer env /\
      sid = AssessmentPage.sessionId env /\
      (exists q, q ∈ qs /\ id q = qid) /\
      whitespace_only a = false /\
      is_nan t = false
  | Http _ => False
  | _ => True
  end.

(** The index of the page, and of every render a suspended handler was
    started from, is an index of the list of questions. *)
Definition index_in_range (qs : list Question) (c : AssessmentPage.Config)
  : Prop :=
  AssessmentPage.currentIndex (AssessmentPage.state c) < length qs /\
  Forall (fun p => AssessmentPage.currentIndex (AssessmentPage.closure p)
                   < length qs)
         (AssessmentPage.inflight c).

(** The page and its results go in step: as many results as questions
    passed, and a suspended handler was started from the render of the
    current question, which is not completed. *)
Definition in_step (qs : list Question) (c : AssessmentPage.Config) : Prop :=
  (AssessmentPage.completed (AssessmentPage.state c) = false ->
   length (AssessmentPage.results (AssessmentPage.state c))
     = AssessmentPage.currentIndex (AssessmentPage.state c)) /\
  length (AssessmentPage.results (AssessmentPage.state c)) <= length qs /\
  length (AssessmentPage.inflight c) <= 1 /\
  Forall (fun p =>
            AssessmentPage.currentIndex (AssessmentPage.closure p)
              = AssessmentPage.currentIndex (AssessmentPage.state c) /\
            AssessmentPage.results (AssessmentPage.closure p)
              = AssessmentPage.results (AssessmentPage.state c) /\
            AssessmentPage.currentIndex (AssessmentPage.state c) < length qs /\
            AssessmentPage.completed (AssessmentPage.state c) = false)
         (AssessmentPage.inflight c).

(** [<AuthPage onLogin={handleLogin} />]: the effects of the auth page as
    the application sees them.  Only the call of [onLogin] reaches it. *)
Definition on_app (w : App.World) (e : effect) : App.World :=
  match e with
  | OnLogin t u => App.step w (App.Login t u)
  | _ => w
  end.

(** The cells are set together to values that are set, or both are
    [null]: the states the store goes through. *)
Definition settled_session (st : App.State) : Prop :=
  match App.token st, App.user st with
  | val t, val _ => truthy_string t = true
  | null, null => True
  | _, _ => False
  end.


(* ===================================================================== *)
(** * Properties of the pages *)
(* ===================================================================== *)

(** ** Strings *)

Lemma trimStart_whitespace_only (s : jsstring) :
  whitespace_only s = true -> trimStart s = [].
Proof.
  induction s as [|c r IH]; simpl; [reflexivity|].
  intros H. apply andb_prop in H as [Hc Hr].
  rewrite Hc. auto.
Qed.

Lemma trim_whitespace_only (s : jsstring) :
  whitespace_only s = true -> trim s = [].
Proof.
  intros H. unfold trim, trimEnd.
  rewrite (trimStart_whitespace_only s H). reflexivity.
Qed.

Lemma trimStart_nil (s : jsstring) :
  trimStart s = [] -> whitespace_only s = true.
Proof.
  induction s as [|c r IH]; simpl; [reflexivity|].
  destruct (isStrWhiteSpaceChar c); [exact IH | discriminate].
Qed.

Lemma whitespace_only_rev (s : jsstring) :
  whitespace_only (rev s) = whitespace_only s.
Proof.
  unfold whitespace_only. induction s as [|c r IH]; [reflexivity|].
  simpl. rewrite forallb_app, IH. simpl.
  rewrite andb_true_r. apply andb_comm.
Qed.

(** [trim] gives the empty string exactly on the strings made of white
    space. *)
Lemma trim_empty_iff (s : jsstring) :
  trim s = [] <-> whitespace_only s = true.
Proof.
  split; [|apply trim_whitespace_only].
  unfold trim, trimEnd. intros H.
  assert (H1 : trimStart (rev (trimStart s)) = []).
  { destruct (trimStart (rev (trimStart s))) as [|c l]; [reflexivity|].
    simpl in H. destruct (rev l); discriminate H. }
  apply trimStart_nil in H1. rewrite whitespace_only_rev in H1.
  destruct s as [|c r]; [reflexivity|].
  simpl in H1 |- *.
  destruct (isStrWhiteSpaceChar c) eqn:Hc.
  - simpl. clear H. induction r as [|d r IH]; [reflexivity|].
    simpl in H1 |- *. destruct (isStrWhiteSpaceChar d) eqn:Hd.
    + simpl. exact (IH H1).
    + simpl in H1. rewrite Hd in H1. discriminate H1.
  - simpl in H1. rewrite Hc in H1. discriminate H1.
Qed.

Example trim_strips_both_ends :
  trim (lit "  cell  division ") = lit "cell  division".
Proof. reflexivity. Qed.

Lemma truthy_string_false (s : string) :
  truthy_string s = false <-> s = "".
Proof.
  unfold truthy_string. rewrite negb_false_iff. apply String.eqb_eq.
Qed.

(** ** Dashboard *)

(** C8: for every topic that is empty or white space only, and for every
    technique (in particular the three offered ones), [startLearning]
    shows an error toast and performs no navigation. *)
Theorem C8_blank_topic_never_navigates (topic : jsstring) (technique : string) :
  whitespace_only topic = true ->
  Dashboard.startLearning topic technique =
    [Toast ToastError (lit "Please enter a topic to learn") no_opts] /\
  existsb is_error_toast (Dashboard.startLearning topic technique) = true /\
  existsb is_navigate (Dashboard.startLearning topic technique) = false.
Proof.
  intros H. unfold Dashboard.startLearning.
  rewrite (trim_whitespace_only topic H). simpl. auto.
Qed.

Lemma C8_blank_topic_witness :
  whitespace_only (lit "  ") = true /\
  existsb is_navigate (Dashboard.startLearning (lit "  ") "video") = false.
Proof.
  split; [reflexivity|].
  apply (C8_blank_topic_never_navigates (lit "  ") "video"). reflexivity.
Defined.

Example startLearning_navigates :
  Dashboard.startLearning (lit " Photosynthesis") "flowchart" =
    [Navigate "/learn"
       (Some (LearnState (lit " Photosynthesis") "flowchart"))].
Proof. reflexivity. Qed.

(** ** Learning page *)

(** C9: when the navigation state does not hold both a topic and a
    technique, the effect run on mount navigates to the dashboard and
    sends no request; [generateContent] is not started. *)
Theorem C9_missing_state_redirects (bearer : nullable string)
        (st : option LearningPage.location_state) :
  present (fst (LearningPage.destructure st))
  && present (snd (LearningPage.destructure st)) = false ->
  LearningPage.mount_effect bearer st = (true, [Navigate "/dashboard" None]) /\
  existsb is_http (snd (LearningPage.mount_effect bearer st)) = false.
Proof.
  unfold LearningPage.mount_effect.
  destruct (LearningPage.destructure st) as [[| |t] [| |k]]; simpl;
    intros H; try discriminate H; auto.
Qed.

Lemma C9_missing_state_witness :
  present (fst (LearningPage.destructure None))
  && present (snd (LearningPage.destructure None)) = false /\
  LearningPage.mount_effect (val "tok") None =
    (true, [Navigate "/dashboard" None]).
Proof.
  split; [reflexivity|].
  apply (C9_missing_state_redirects (val "tok") None). reflexivity.
Defined.

Example mount_with_state_requests_content :
  LearningPage.mount_effect (val "tok")
    (Some {| LearningPage.topic := val (lit "Tides");
             LearningPage.technique := val "video" |}) =
    (true, [Http (PostGenerateContent (val "tok") (lit "Tides") "video")]).
Proof. reflexivity. Qed.

(** ** Auth page *)

(** C7: a signup submission sends no request exactly when the education
    level is empty, or it is ["school"] and the sub level or the board is
    empty; in both cases an error toast is shown instead. *)
Theorem C7_signup_blocked_locally (f : AuthPage.Form) :
  AuthPage.isLogin f = false ->
  (existsb is_http (snd (AuthPage.handleSubmit f)) = false <->
   AuthPage.educationLevel f = "" \/
   (AuthPage.educationLevel f = "school" /\
    (AuthPage.subLevel f = "" \/ AuthPage.board f = ""))) /\
  (existsb is_http (snd (AuthPage.handleSubmit f)) = false ->
   existsb is_error_toast (snd (AuthPage.handleSubmit f)) = true /\
   AuthPage.loading (fst (AuthPage.handleSubmit f)) = false).
Proof.
  intros Hmode. unfold AuthPage.handleSubmit. rewrite Hmode.
  destruct (truthy_string (AuthPage.educationLevel f)) eqn:Hlevel; simpl.
  2:{ apply truthy_string_false in Hlevel. split; [split|]; auto. }
  assert (Hne : AuthPage.educationLevel f <> "").
  { intros E. apply truthy_string_false in E. congruence. }
  destruct (String.eqb (AuthPage.educationLevel f) "school") eqn:Hschool;
    simpl.
  - apply String.eqb_eq in Hschool.
    destruct (truthy_string (AuthPage.subLevel f)) eqn:Hsub; simpl.
    + destruct (truthy_string (AuthPage.board f)) eqn:Hboard; simpl.
      * split; [split|]; try discriminate.
        intros [E | [_ [E | E]]]; [contradiction| |];
          apply truthy_string_false in E; congruence.
      * apply truthy_string_false in Hboard. split; [split|]; auto.
    + apply truthy_string_false in Hsub. split; [split|]; auto.
  - apply String.eqb_neq in Hschool.
    split; [split|]; try discriminate.
    intros [E | [E _]]; contradiction.
Qed.

Lemma C7_signup_blocked_witness :
  AuthPage.isLogin
    (AuthPage.handleEducationChange "school" AuthPage.initial) = false /\
  existsb is_http
    (snd (AuthPage.handleSubmit
            (AuthPage.handleEducationChange "school" AuthPage.initial)))
  = false.
Proof.
  split; [reflexivity|].
  apply (proj2 (proj1 (C7_signup_blocked_locally
           (AuthPage.handleEducationChange "school" AuthPage.initial)
           eq_refl))).
  right. split; [reflexivity|]. left. reflexivity.
Defined.

Example complete_school_signup_is_sent :
  snd (AuthPage.handleSubmit
         {| AuthPage.isLogin := false; AuthPage.loading := false;
            AuthPage.email := lit "a@b.c"; AuthPage.password := lit "pw";
            AuthPage.educationLevel := "school";
            AuthPage.subLevel := "middle"; AuthPage.board := "cbse";
            AuthPage.showSubLevel := true |}) =
    [Http (PostSignup (lit "a@b.c") (lit "pw") "school"
                      (Some "middle") (Some "cbse"))].
Proof. reflexivity. Qed.

(** ** Session store *)

Section Store.
Import App Session.

Lemma well_stored_open (ls : Storage) :
  well_stored ls = true -> coherent (open ls).
Proof.
  unfold well_stored, coherent, open, half_set, token_set, user_set,
    persisted, mount_effects, token_effect, user_effect, initial.
  destruct ls as [[t|] [u|]]; simpl; intros H; try discriminate H.
  - rewrite H. simpl. auto.
  - auto.
Qed.

Lemma persisted_well_stored (st : State) :
  half_set st = false -> well_stored (persisted st) = true.
Proof.
  unfold half_set, token_set, user_set, well_stored, persisted,
    mount_effects, token_effect, user_effect, truthy_token, truthy_user.
  destruct st as [[| |t] [| |u]]; simpl; try discriminate; auto;
    destruct (truthy_string t) eqn:E; simpl; try discriminate; auto.
Qed.

Lemma step_coherent (w : World) (ev : event) :
  coherent w -> carries_both ev = true -> coherent (step w ev).
Proof.
  intros [Hhalf Hls] Hev. destruct ev as [t u| |].
  - (* Login *)
    simpl in Hev. apply andb_prop in Hev as [Ht Hu].
    destruct u as [| |u]; try discriminate Hu.
    destruct t as [| |t]; try discriminate Ht. simpl in Ht.
    unfold coherent, step, handleLogin, half_set, token_set, user_set.
    simpl. rewrite Ht. split; [reflexivity|].
    unfold update_effects. simpl.
    assert (Hsame : same_user (user (state w)) (val u) = false)
      by (destruct (user (state w)); reflexivity).
    rewrite Hsame. case_decide as Htok.
    + rewrite Hls. unfold persisted, mount_effects, user_effect,
        token_effect. rewrite Htok. simpl. rewrite Ht.
      destruct (user (state w)); reflexivity.
    + unfold persisted, mount_effects, user_effect, token_effect.
      simpl. rewrite Ht. reflexivity.
  - (* Logout *)
    unfold coherent, step, handleLogout, update_effects. simpl.
    split; [reflexivity|].
    case_decide; destruct (same_user (user (state w)) null); reflexivity.
  - (* Reload *)
    simpl. apply well_stored_open. rewrite Hls.
    apply persisted_well_stored. exact Hhalf.
Qed.

Lemma run_coherent (evs : list event) (w : World) :
  coherent w -> forallb carries_both evs = true -> coherent (run w evs).
Proof.
  revert w. induction evs as [|ev evs IH]; intros w Hw Hevs; [exact Hw|].
  simpl in Hevs. apply andb_prop in Hevs as [Hev Hevs].
  simpl. apply IH; [|exact Hevs]. apply step_coherent; assumption.
Qed.

Lemma coherent_not_half_stored (w : World) :
  coherent w -> half_stored (storage w) = false.
Proof.
  intros [Hhalf Hls]. pose proof (persisted_well_stored _ Hhalf) as H.
  rewrite <- Hls in H. unfold well_stored in H. unfold half_stored.
  destruct (item_token (storage w)), (item_user (storage w));
    try discriminate H; reflexivity.
Qed.

Lemma coherent_page_user (w : World) (path name : string)
      (u : nullable User) :
  coherent w -> route (state w) path = Page name u ->
  truthy_user u = true.
Proof.
  intros [Hhalf _]. unfold half_set, token_set, user_set in Hhalf.
  unfold route.
  repeat (destruct (String.eqb path _); try discriminate);
    destruct (truthy_token (token (state w))) eqn:Ht; try discriminate;
    intros H; injection H as _ <-; simpl in Hhalf;
    destruct (truthy_user (user (state w))); try discriminate Hhalf;
    reflexivity.
Qed.

End Store.

(** C5, as amended: starting from a storage that holds a non-empty token
    and a user, or neither (what the application itself writes, and in
    particular an empty storage), and with every successful login or
    signup response carrying a non-empty token and a user, no reachable
    state holds exactly one of token and user, neither in the cells nor
    in the storage; a login sets both cells to the token and the user of
    the response and the storage to exactly these two, a logout clears
    both cells and the storage, and every page rendered behind the route
    guard is given a user. *)
Theorem C5_token_and_user_together (ls : App.Storage) (evs : list App.event) :
  Session.well_stored ls = true ->
  forallb Session.carries_both evs = true ->
  let w := App.run (App.open ls) evs in
  Session.half_set (App.state w) = false /\
  Session.half_stored (App.storage w) = false /\
  (forall t u,
      Session.carries_both (App.Login t u) = true ->
      App.state (App.step w (App.Login t u))
        = {| App.token := t; App.user := u |} /\
      App.storage (App.step w (App.Login t u))
        = {| App.item_token := of_nullable t;
             App.item_user := of_nullable u |} /\
      Session.half_set (App.state (App.step w (App.Login t u))) = false /\
      Session.half_stored (App.storage (App.step w (App.Login t u)))
        = false) /\
  (Session.token_set (App.state (App.step w App.Logout)) = false /\
   Session.user_set (App.state (App.step w App.Logout)) = false /\
   App.storage (App.step w App.Logout) = App.clear) /\
  (forall path name u,
      App.route (App.state w) path = App.Page name u ->
      App.truthy_user u = true).
Proof.
  intros Hls Hevs w.
  assert (Hw : Session.coherent w).
  { apply run_coherent; [|exact Hevs]. apply well_stored_open. exact Hls. }
  split; [exact (proj1 Hw)|].
  split; [exact (coherent_not_half_stored w Hw)|].
  split; [|split].
  - intros t u Hboth.
    pose proof (step_coherent w (App.Login t u) Hw Hboth) as Hw'.
    split; [reflexivity|]. split.
    + rewrite (proj2 Hw'). simpl in Hboth.
      apply andb_prop in Hboth as [Ht Hu].
      destruct t as [| |t]; try discriminate Ht.
      destruct u as [| |u]; try discriminate Hu.
      simpl in Ht. unfold Session.persisted, App.mount_effects,
        App.user_effect, App.token_effect. simpl. rewrite Ht. reflexivity.
    + split; [exact (proj1 Hw')|].
      exact (coherent_not_half_stored _ Hw').
  - pose proof (step_coherent w App.Logout Hw eq_refl) as [_ Hs].
    repeat split. exact Hs.
  - intros path name u. apply coherent_page_user. exact Hw.
Qed.

Lemma C5_token_and_user_witness :
  let u := {| user_email := lit "a@b.c"; user_education_level := "college";
              user_sub_level := None; user_board := None |} in
  let evs := [App.Login (val "t1") (val u); App.Reload; App.Logout;
              App.Login (val "t2") (val u)] in
  Session.well_stored App.clear = true /\
  forallb Session.carries_both evs = true /\
  Session.half_set (App.state (App.run (App.open App.clear) evs)) = false /\
  App.storage (App.step (App.run (App.open App.clear) evs)
                 (App.Login (val "t3") (val u)))
    = {| App.item_token := Some "t3"; App.item_user := Some u |}.
Proof.
  intros u evs. split; [reflexivity|]. split; [reflexivity|].
  split;
    [exact (proj1 (C5_token_and_user_together App.clear evs eq_refl eq_refl))|].
  exact (proj1 (proj2
           (proj1 (proj2 (proj2
              (C5_token_and_user_together App.clear evs eq_refl eq_refl)))
              (val "t3") (val u) eq_refl))).
Defined.

(** C5 as stated fails: nothing checks what a response or the
    storage holds.  A login whose response carries a token and no user
    leaves exactly the token set, in the cells and in the storage, and
    the dashboard is rendered without a user; and so does opening the
    application on a storage that holds a token and no user. *)
Lemma C5_half_set_counterexample :
  let w1 := App.run (App.open App.clear) [App.Login (val "t1") undefined] in
  let w2 := App.open {| App.item_token := Some "t1";
                        App.item_user := None |} in
  (Session.half_set (App.state w1) = true /\
   Session.half_stored (App.storage w1) = true /\
   App.route (App.state w1) "/dashboard" = App.Page "Dashboard" undefined) /\
  (Session.half_set (App.state w2) = true /\
   Session.half_stored (App.storage w2) = true /\
   App.route (App.state w2) "/dashboard" = App.Page "Dashboard" null).
Proof.
  vm_compute. repeat split.
Qed.

(** ** Assessment page: the handlers *)

Section Assessment.
Import AssessmentPage.
Variable env : Env.

Lemma currentQuestion_questions (s : State) (q : Question) :
  currentQuestion env s = Some q ->
  exists q0 qs, questions env = val (q0 :: qs).
Proof.
  unfold currentQuestion.
  destruct (questions env) as [| |[|q0 qs]]; try discriminate; eauto.
Qed.

Lemma render_open_question (s : State) (q : Question) :
  currentQuestion env s = Some q ->
  completed s = false ->
  exists i n cls v e, render env s = QuestionCard i n cls q v e.
Proof.
  intros Hq Hc. destruct (currentQuestion_questions s q Hq) as (q0 & qs & E).
  unfold render. rewrite E, Hc, Hq. eauto 10.
Qed.

Lemma render_card_question (s : State) i n cls q v e :
  render env s = QuestionCard i n cls q v e ->
  currentQuestion env s = Some q.
Proof.
  unfold render.
  destruct (questions env) as [| |[|q0 qs]]; try discriminate.
  destruct (completed s); try discriminate.
  destruct (currentQuestion env s); try discriminate.
  intros H. injection H as _ _ _ -> _ _. reflexivity.
Qed.

Lemma get_own (s : State) (k : string) (a : jsstring) :
  answers s !! k = Some a -> get (answers s) k = own a.
Proof.
  unfold get. intros ->. reflexivity.
Qed.



End Assessment.




Example answered_question_is_submitted :
  let env := Quiz.two_questions in
  let c := AssessmentPage.run env (AssessmentPage.start env 1000)
             [AssessmentPage.Change (lit "mitosis");
              AssessmentPage.Tick 2500; AssessmentPage.Submit] in
  AssessmentPage.log c =
    [Http (PostEvaluateAnswer (val "tok") (val "s1") "q1" (lit "mitosis")
                              num_1_5)].
Proof. vm_compute. reflexivity. Qed.

(** C6: when the evaluate-answer request of a suspended [submitAnswer]
    is rejected, the state is what it was, the only effect is the error
    toast, and the request is dropped without another one being sent. *)
Theorem C6_failed_request_changes_nothing
        (env : AssessmentPage.Env) (c : AssessmentPage.Config)
        (k : nat) (p : AssessmentPage.Pending) (now : Z) :
  AssessmentPage.left_page c = false ->
  AssessmentPage.inflight c !! k = Some p ->
  let c' := AssessmentPage.step env c (AssessmentPage.Settle k None now) in
  AssessmentPage.state c' = AssessmentPage.state c /\
  AssessmentPage.log c' =
    (AssessmentPage.log c ++
       [Toast ToastError (lit "Failed to submit answer") no_opts])%list /\
  AssessmentPage.inflight c' = delete k (AssessmentPage.inflight c) /\
  S (length (AssessmentPage.inflight c'))
    = length (AssessmentPage.inflight c).
Proof.
  intros Hleft Hp c'. subst c'. unfold AssessmentPage.step.
  rewrite Hleft, Hp. simpl. repeat split.
  rewrite length_delete by (rewrite Hp; eauto).
  apply lookup_lt_Some in Hp. lia.
Qed.

Lemma C6_failed_request_witness :
  let env := Quiz.two_questions in
  let c := AssessmentPage.run env (AssessmentPage.start env 0)
             [AssessmentPage.Change (lit "x"); AssessmentPage.Submit] in
  AssessmentPage.left_page c = false /\
  length (AssessmentPage.inflight c) = 1%nat /\
  AssessmentPage.state
    (AssessmentPage.step env c (AssessmentPage.Settle 0 None 7))
    = AssessmentPage.state c.
Proof.
  intros env c. split; [reflexivity|]. split; [reflexivity|].
  destruct (AssessmentPage.inflight c !! 0%nat) as [p|] eqn:Hp;
    [|vm_compute in Hp; discriminate Hp].
  exact (proj1 (C6_failed_request_changes_nothing env c 0 p 7 eq_refl Hp)).
Defined.

(** ** Assessment page: the timer *)

Section Thresholds.
(** Two positive finite thresholds with the same exponent, the lower
    one first, as 1.0 and 1.5 are in binary64. *)
Variables (lo hi : positive) (x : Z).
Hypothesis lo_hi : (lo < hi)%positive.

Lemma buckets_agree (ratio : number) (A : Type) (normal warning danger : A) :
  is_nan ratio = false ->
  (if le ratio (S754_finite false lo x) then Some normal
   else if gt ratio (S754_finite false lo x)
           && le ratio (S754_finite false hi x) then Some warning
   else if gt ratio (S754_finite false hi x) then Some danger
   else None) =
  Some (if gt ratio (S754_finite false hi x) then danger
        else if gt ratio (S754_finite false lo x) then warning
        else normal).
Proof.
  unfold gt, le, SFltb, SFleb.
  destruct ratio as [sg|sg| |sg m e]; intros Hnan.
  - destruct sg; reflexivity.
  - destruct sg; reflexivity.
  - discriminate Hnan.
  - destruct sg; [reflexivity|].
    cbn [SFcompare].
    change (PosDef.Pos.compare_cont Eq) with Pos.compare.
    rewrite (Z.compare_antisym e x).
    rewrite (Pos.compare_antisym m lo), (Pos.compare_antisym m hi).
    destruct (Z.compare e x); cbn; try reflexivity.
    destruct (Pos.compare_spec m lo); destruct (Pos.compare_spec m hi);
      cbn; try reflexivity; lia.
Qed.

End Thresholds.

Section Rounding.
(** Rounding a mantissa that is not negative never gives NaN, in any
    format. *)
Variables fprec femax : Z.

Lemma shr_1_nonneg (mrs : shr_record) :
  (0 <= shr_m mrs)%Z -> (0 <= shr_m (shr_1 mrs))%Z.
Proof.
  destruct mrs as [m r s]. simpl.
  destruct m as [|p|p]; [reflexivity| |lia].
  intros _. destruct p; simpl; lia.
Qed.

Lemma iter_pos_shr_1_nonneg (p : positive) (mrs : shr_record) :
  (0 <= shr_m mrs)%Z -> (0 <= shr_m (SpecFloat.iter_pos shr_1 p mrs))%Z.
Proof.
  revert mrs. induction p as [p IH|p IH|]; intros mrs H; simpl.
  - apply IH, IH, shr_1_nonneg, H.
  - apply IH, IH, H.
  - apply shr_1_nonneg, H.
Qed.

Lemma shr_fexp_nonneg (m e : Z) (l : location) :
  (0 <= m)%Z -> (0 <= shr_m (fst (shr_fexp fprec femax m e l)))%Z.
Proof.
  intros H. unfold shr_fexp, shr.
  assert (H0 : (0 <= shr_m (shr_record_of_loc m l))%Z).
  { destruct l as [|[| |]]; exact H. }
  destruct (fexp fprec femax (Zdigits2 m + e) - e)%Z; simpl; auto.
  apply iter_pos_shr_1_nonneg, H0.
Qed.

Lemma round_nearest_even_nonneg (m : Z) (l : location) :
  (0 <= m)%Z -> (0 <= round_nearest_even m l)%Z.
Proof.
  intros H. destruct l as [|[| |]]; simpl; try lia.
  destruct (Z.even m); lia.
Qed.

Lemma binary_round_aux_not_nan (sx : bool) (mx ex : Z) (lx : location) :
  (0 <= mx)%Z -> binary_round_aux fprec femax sx mx ex lx <> S754_nan.
Proof.
  intros H. unfold binary_round_aux.
  pose proof (shr_fexp_nonneg mx ex lx H) as H1.
  destruct (shr_fexp fprec femax mx ex lx) as [mrs' e']. simpl in H1.
  pose proof (shr_fexp_nonneg _ e' loc_Exact
                (round_nearest_even_nonneg _ (loc_of_shr_record mrs') H1))
    as H2.
  destruct (shr_fexp fprec femax _ e' loc_Exact) as [mrs'' e''].
  simpl in H2.
  destruct (shr_m mrs'') as [|p|p]; try discriminate; [|lia].
  destruct (e'' <=? femax - fprec)%Z; discriminate.
Qed.

Lemma binary_normalize_not_nan (m e : Z) (sz : bool) :
  binary_normalize fprec femax m e sz <> S754_nan.
Proof.
  unfold binary_normalize, binary_round.
  destruct m as [|p|p]; [discriminate| |];
    destruct (shl_align _ _ _) as [mz ez];
    apply binary_round_aux_not_nan; lia.
Qed.

(** A number divided by a finite non-zero number is a number. *)
Lemma SFdiv_finite_not_nan (x : spec_float) (sy : bool) (my : positive)
      (ey : Z) :
  x <> S754_nan -> SFdiv fprec femax x (S754_finite sy my ey) <> S754_nan.
Proof.
  intros Hx. destruct x as [sx|sx| |sx mx ex]; try discriminate;
    [congruence|].
  unfold SFdiv.
  destruct (SFdiv_core_binary fprec femax (Z.pos mx) ex (Z.pos my) ey)
    as [[mz ez] lz] eqn:E.
  apply binary_round_aux_not_nan.
  unfold SFdiv_core_binary in E.
  set (m' := match _ with Z.pos _ => _ | _ => _ end) in E.
  assert (Hm : (0 <= m')%Z).
  { unfold m'. destruct (_ - _ - _)%Z; try lia. apply Z.shiftl_nonneg. lia. }
  clearbody m'.
  pose proof (Z.div_pos m' (Z.pos my) Hm ltac:(lia)) as Hq.
  unfold Z.div in Hq.
  destruct (Z.div_eucl m' (Z.pos my)) as [q r].
  injection E as <- _ _. exact Hq.
Qed.

End Rounding.

Section Timer.
Import AssessmentPage.

(** The ternary of the render agrees with the buckets of the
    specification on every number; only NaN falls in no bucket. *)
Lemma timerClass_urgency_spec (ratio : number) :
  is_nan ratio = false ->
  urgency_spec ratio = Some (timerClass ratio).
Proof.
  unfold urgency_spec, timerClass, num_1, num_1_5.
  apply buckets_agree. reflexivity.
Qed.

Lemma or_60_truthy (x : nullable number) : truthy_num (or_60 x) = true.
Proof.
  destruct x as [| |n]; try reflexivity.
  simpl. destruct (truthy_num n) eqn:E; [exact E | reflexivity].
Qed.

Lemma expectedTime_truthy (env : Env) (s : State) :
  truthy_num (expectedTime env s) = true.
Proof.
  unfold expectedTime.
  destruct (currentQuestion env s); [apply or_60_truthy | reflexivity].
Qed.

Lemma is_nan_false (x : number) : is_nan x = false <-> x <> S754_nan.
Proof. destruct x; simpl; split; congruence. Qed.

(** With JSON numbers as expected times the divisor is finite. *)
Lemma expectedTime_finite (env : Env) (s : State) :
  json_times env = true ->
  exists sg m e, expectedTime env s = S754_finite sg m e.
Proof.
  intros Hjson. unfold expectedTime.
  destruct (currentQuestion env s) as [q|] eqn:Hq;
    [|unfold num_60; eauto].
  unfold currentQuestion in Hq. unfold json_times in Hjson.
  destruct (questions env) as [| |qs]; try discriminate Hq.
  rewrite forallb_forall in Hjson.
  apply list_elem_of_lookup_2, list_elem_of_In in Hq.
  specialize (Hjson q Hq).
  destruct (expected_time q) as [| |n]; simpl; try (unfold num_60; eauto).
  destruct n; try discriminate Hjson; simpl; unfold num_60; eauto.
Qed.

(** The timer is a number in every state a visit goes through. *)
Lemma step_timer_number (env : Env) (c : Config) (ev : event) :
  is_nan (timer (state c)) = false ->
  is_nan (timer (state (step env c ev))) = false.
Proof.
  intros H. unfold step. destruct (left_page c); [exact H|].
  destruct ev as [now|value| |k reply now|].
  - apply is_nan_false. cbn. unfold div, num_1000.
    apply SFdiv_finite_not_nan, binary_normalize_not_nan.
  - destruct (render env (state c)); exact H.
  - destruct (render env (state c)); try exact H.
    destruct (submitAnswer env q (state c)); exact H.
  - destruct (inflight c !! k) as [p|]; [|exact H].
    unfold submitAnswer_settled.
    destruct reply as [data|]; [|exact H].
    destruct (questions env) as [| |qs]; destruct (is_correct data);
      try exact H;
      destruct (Z.of_nat (currentIndex (closure p))
                <? Z.of_nat (length qs) - 1)%Z; try exact H; reflexivity.
  - destruct (render env (state c)); exact H.
Qed.

Lemma run_timer_number (env : Env) (evs : list event) (c : Config) :
  is_nan (timer (state c)) = false ->
  is_nan (timer (state (run env c evs))) = false.
Proof.
  revert c. induction evs as [|ev evs IH]; intros c H; [exact H|].
  apply (IH (step env c ev)), step_timer_number, H.
Qed.

(** Hence the ratio is a number, and it falls in a bucket. *)
Lemma visit_ratio_in_bucket (env : Env) (now : Z) (evs : list event) :
  json_times env = true ->
  urgency_spec (timeRatio env (state (run env (start env now) evs))) =
    Some (timerClass (timeRatio env (state (run env (start env now) evs)))).
Proof.
  intros Hjson. apply timerClass_urgency_spec.
  apply is_nan_false. unfold timeRatio.
  destruct (expectedTime_finite env (state (run env (start env now) evs))
              Hjson) as (sg & m & e & ->).
  apply SFdiv_finite_not_nan, is_nan_false, run_timer_number.
  reflexivity.
Qed.

End Timer.

(** C2: for every timer value and expected time whose ratio is a number,
    a ratio of at most 1.0 is shown with the normal class, a ratio above
    1.0 and at most 1.5 with the warning class, and a ratio above 1.5 with
    the danger class; the ratios 1.0 and 1.5 themselves fall in the lower
    bucket. *)
Theorem C2_timer_class_buckets (t e : number) :
  is_nan (div t e) = false ->
  urgency_spec (div t e) = Some (AssessmentPage.timerClass (div t e)) /\
  AssessmentPage.timerClass num_1 = AssessmentPage.TimerNormal /\
  AssessmentPage.timerClass num_1_5 = AssessmentPage.TimerWarning.
Proof.
  intros H. split; [|split].
  - exact (timerClass_urgency_spec _ H).
  - vm_compute. reflexivity.
  - vm_compute. reflexivity.
Qed.

Lemma C2_timer_class_witness :
  is_nan (div (num_of_Z 90) num_60) = false /\
  urgency_spec (div (num_of_Z 90) num_60)
    = Some (AssessmentPage.timerClass (div (num_of_Z 90) num_60)) /\
  AssessmentPage.timerClass (div (num_of_Z 90) num_60)
    = AssessmentPage.TimerWarning.
Proof.
  assert (H : is_nan (div (num_of_Z 90) num_60) = false)
    by (vm_compute; reflexivity).
  split; [exact H|]. split.
  - exact (proj1 (C2_timer_class_buckets (num_of_Z 90) num_60 H)).
  - vm_compute. reflexivity.
Defined.

(** C10: when the [expected_time] of the current question is absent,
    [null] or zero, the expected time used is 60; whatever the question,
    the divisor of the ratio is neither zero nor NaN; and in every state a
    visit goes through, with expected times as JSON carries them, the
    ratio falls in one of the three buckets and gets its class. *)
Theorem C10_expected_time_default
        (env : AssessmentPage.Env) (s : AssessmentPage.State)
        (q : Question) :
  AssessmentPage.currentQuestion env s = Some q ->
  absent_null_or_zero (expected_time q) = true ->
  AssessmentPage.expectedTime env s = num_60 /\
  AssessmentPage.timeRatio env s = div (AssessmentPage.timer s) num_60 /\
  (forall env' s',
      is_zero (AssessmentPage.expectedTime env' s') = false /\
      is_nan (AssessmentPage.expectedTime env' s') = false) /\
  (forall env' now evs,
      json_times env' = true ->
      let s' := AssessmentPage.state
                  (AssessmentPage.run env' (AssessmentPage.start env' now)
                     evs) in
      urgency_spec (AssessmentPage.timeRatio env' s') =
        Some (AssessmentPage.timerClass (AssessmentPage.timeRatio env' s'))).
Proof.
  intros Hq Hx.
  assert (E : AssessmentPage.expectedTime env s = num_60).
  { unfold AssessmentPage.expectedTime. rewrite Hq.
    destruct (expected_time q) as [| |n]; try reflexivity.
    destruct n; try discriminate Hx. reflexivity. }
  split; [exact E|]. split; [|split].
  - unfold AssessmentPage.timeRatio. rewrite E. reflexivity.
  - intros env' s'. pose proof (expectedTime_truthy env' s') as T.
    destruct (AssessmentPage.expectedTime env' s'); try discriminate T;
      split; reflexivity.
  - intros env' now evs Hjson. apply visit_ratio_in_bucket. exact Hjson.
Qed.

Lemma C10_expected_time_witness :
  let q := {| id := "q1"; type := "mcq"; question := lit "?";
              options := Some [lit "a"; lit "b"];
              expected_time := val (num_of_Z 0) |} in
  let env := Quiz.env_of [q] in
  AssessmentPage.currentQuestion env (AssessmentPage.initial 0) = Some q /\
  absent_null_or_zero (expected_time q) = true /\
  AssessmentPage.expectedTime env (AssessmentPage.initial 0) = num_60.
Proof.
  intros q env. split; [reflexivity|]. split; [reflexivity|].
  exact (proj1 (C10_expected_time_default env (AssessmentPage.initial 0) q
                  eq_refl eq_refl)).
Defined.

(** ** Assessment page: the score *)

Section Score.
Import AssessmentPage Quiz.
Variable env : Env.

Lemma count_correct_app (l1 l2 : list EvalResponse) :
  count_correct (l1 ++ l2) = count_correct l1 + count_correct l2.
Proof.
  induction l1 as [|r l1 IH]; simpl; [reflexivity|]. rewrite IH. lia.
Qed.

Lemma settled_rejected (cl cur : State) (now : Z) :
  submitAnswer_settled env cl now None cur =
    (cur, [Toast ToastError (lit "Failed to submit answer") no_opts]).
Proof. reflexivity. Qed.

Lemma settled_score (cl cur : State) (now : Z) (data : EvalResponse) :
  score (fst (submitAnswer_settled env cl now (Some data) cur)) =
    if is_correct data then score cl + 1 else score cur.
Proof.
  unfold submitAnswer_settled.
  destruct (questions env) as [| |qs]; destruct (is_correct data);
    try reflexivity;
    destruct (Z.of_nat (currentIndex cl) <? Z.of_nat (length qs) - 1)%Z;
    reflexivity.
Qed.

Lemma settled_results (cl cur : State) (now : Z) (data : EvalResponse) :
  results (fst (submitAnswer_settled env cl now (Some data) cur)) =
    results cl ++ [data].
Proof.
  unfold submitAnswer_settled.
  destruct (questions env) as [| |qs]; destruct (is_correct data);
    try reflexivity;
    destruct (Z.of_nat (currentIndex cl) <? Z.of_nat (length qs) - 1)%Z;
    reflexivity.
Qed.

Lemma up_to_date_same (c c' : Config) :
  inflight c' = inflight c ->
  score (state c') = score (state c) ->
  results (state c') = results (state c) ->
  up_to_date c -> up_to_date c'.
Proof.
  unfold up_to_date. intros -> -> ->. auto.
Qed.

(** One event of a run with one request at a time: the invariant is
    kept, and the score and the results grow by what was delivered. *)
Lemma step_one_at_a_time (c : Config) (ev : event) :
  up_to_date c ->
  length (inflight (step env c ev)) <= 1 ->
  up_to_date (step env c ev) /\
  score (state (step env c ev)) =
    score (state c) + count_correct (delivered c ev) /\
  results (state (step env c ev)) = results (state c) ++ delivered c ev.
Proof.
  intros Hc Hlen. unfold delivered. unfold step in *.
  destruct (left_page c).
  { rewrite Nat.add_0_r, app_nil_r. auto. }
  destruct ev as [now|value| |k reply now|].
  - (* Tick *)
    rewrite Nat.add_0_r, app_nil_r.
    split; [apply (up_to_date_same c); auto | auto].
  - (* Change *)
    rewrite Nat.add_0_r, app_nil_r.
    destruct (render env (state c));
      (split; [apply (up_to_date_same c); auto | auto]).
  - (* Submit *)
    rewrite Nat.add_0_r, app_nil_r.
    destruct (render env (state c));
      try (split; [apply (up_to_date_same c); auto | auto]; fail).
    destruct (submitAnswer env q (state c)) as [effs|req|].
    + split; [apply (up_to_date_same c); auto | auto].
    + split; [|auto]. simpl in Hlen. split; [exact Hlen|]. simpl.
      apply Forall_app. split; [exact (proj2 Hc)|].
      constructor; [auto|constructor].
    + auto.
  - (* Settle *)
    destruct (inflight c !! k) as [p|] eqn:Hp.
    2:{ destruct reply; rewrite Nat.add_0_r, app_nil_r; auto. }
    destruct Hc as [Hone Hfresh].
    assert (Hall : inflight c = [p] /\ k = 0).
    { destruct (inflight c) as [|p0 [|p1 l]]; simpl in Hone, Hp.
      - destruct k; discriminate Hp.
      - destruct k as [|k]; simpl in Hp; [|destruct k; discriminate Hp].
        injection Hp as ->. auto.
      - lia. }
    destruct Hall as [Hin ->]. rewrite Hin in Hfresh.
    apply Forall_inv in Hfresh. destruct Hfresh as [Hscore Hresults].
    destruct reply as [data|].
    + pose proof (settled_score (closure p) (state c) now data) as Hs.
      pose proof (settled_results (closure p) (state c) now data) as Hr.
      destruct (submitAnswer_settled env (closure p) now (Some data)
                  (state c)) as [s' effs].
      simpl in Hs, Hr |- *. rewrite Hin. simpl.
      split; [split; simpl; [lia | constructor]|].
      rewrite Hs, Hr, Hscore, Hresults.
      destruct (is_correct data); split; auto; lia.
    + rewrite settled_rejected. simpl.
      rewrite Nat.add_0_r, app_nil_r, Hin. simpl.
      split; [split; simpl; [lia | constructor]|]. auto.
  - (* Continue *)
    rewrite Nat.add_0_r, app_nil_r.
    destruct (render env (state c));
      (split; [apply (up_to_date_same c); auto | auto]).
Qed.

Lemma run_one_at_a_time (evs : list event) (c : Config) :
  up_to_date c ->
  one_at_a_time env c evs = true ->
  up_to_date (run env c evs) /\
  score (state (run env c evs)) =
    score (state c) + count_correct (evaluated env c evs) /\
  results (state (run env c evs)) =
    results (state c) ++ evaluated env c evs.
Proof.
  revert c. induction evs as [|ev evs IH]; intros c Hc Hseq.
  - simpl. rewrite Nat.add_0_r, app_nil_r. auto.
  - simpl in Hseq. apply andb_prop in Hseq as [Hlen Hseq].
    apply Nat.leb_le in Hlen.
    destruct (step_one_at_a_time c ev Hc Hlen) as (Hc' & Hs & Hr).
    destruct (IH (step env c ev) Hc' Hseq) as (Hc'' & Hs' & Hr').
    simpl. fold (run env (step env c ev) evs).
    rewrite Hs', Hr', Hs, Hr, count_correct_app, <- app_assoc.
    split; [exact Hc''|]. split; [lia | reflexivity].
Qed.

Lemma one_at_a_time_app (pre post : list event) (c : Config) :
  one_at_a_time env c (pre ++ post) =
    one_at_a_time env c pre && one_at_a_time env (run env c pre) post.
Proof.
  revert c. induction pre as [|ev pre IH]; intros c; [reflexivity|].
  simpl. rewrite IH, andb_assoc. reflexivity.
Qed.

Lemma run_app (pre post : list event) (c : Config) :
  run env c (pre ++ post) = run env (run env c pre) post.
Proof. unfold run. apply fold_left_app. Qed.

Lemma start_up_to_date (now : Z) : up_to_date (start env now).
Proof. split; [simpl; lia | constructor]. Qed.

End Score.

(** C1, as amended: in a visit where no answer is submitted while an
    earlier submission still awaits its response, the score after the
    successful submissions is the number of their responses with
    [is_correct] true, the results are those responses in order, and the
    score never decreases along the visit. *)
Theorem C1_score_counts_correct_answers
        (env : AssessmentPage.Env) (now : Z)
        (evs : list AssessmentPage.event) :
  Quiz.one_at_a_time env (AssessmentPage.start env now) evs = true ->
  let c := AssessmentPage.run env (AssessmentPage.start env now) evs in
  let answered := Quiz.evaluated env (AssessmentPage.start env now) evs in
  AssessmentPage.score (AssessmentPage.state c)
    = Quiz.count_correct answered /\
  AssessmentPage.results (AssessmentPage.state c) = answered /\
  (forall pre post,
      evs = (pre ++ post)%list ->
      AssessmentPage.score
        (AssessmentPage.state
           (AssessmentPage.run env (AssessmentPage.start env now) pre))
      <= AssessmentPage.score (AssessmentPage.state c)).
Proof.
  intros Hseq c answered.
  destruct (run_one_at_a_time env evs _ (start_up_to_date env now) Hseq)
    as (_ & Hs & Hr).
  split; [exact Hs|]. split; [exact Hr|].
  intros pre post ->. subst c.
  rewrite one_at_a_time_app in Hseq. apply andb_prop in Hseq as [Hpre Hpost].
  destruct (run_one_at_a_time env pre _ (start_up_to_date env now) Hpre)
    as (Hc & _ & _).
  destruct (run_one_at_a_time env post _ Hc Hpost) as (_ & Hs' & _).
  rewrite run_app, Hs'. lia.
Qed.

Lemma C1_score_counts_witness :
  let env := Quiz.six_questions in
  let evs := Quiz.session (lit "x")
               (Quiz.verdicts [true; false; true; true; false; true]) in
  Quiz.one_at_a_time env (AssessmentPage.start env 0) evs = true /\
  AssessmentPage.score
    (AssessmentPage.state
       (AssessmentPage.run env (AssessmentPage.start env 0) evs))
  = Quiz.count_correct (Quiz.evaluated env (AssessmentPage.start env 0) evs).
Proof.
  intros env evs.
  assert (H : Quiz.one_at_a_time env (AssessmentPage.start env 0) evs = true)
    by (vm_compute; reflexivity).
  split; [exact H|].
  exact (proj1 (C1_score_counts_correct_answers env 0 evs H)).
Defined.

(** C1 as stated fails when two submissions overlap: both handlers were
    started from the render with score 0, so two correct answers leave
    the score at 1 and the first response out of the results. *)
Lemma C1_overlapping_submissions_counterexample :
  let env := Quiz.two_questions in
  let evs := [AssessmentPage.Change (lit "x");
              AssessmentPage.Submit; AssessmentPage.Submit;
              AssessmentPage.Settle 0 (Some (Quiz.verdict true)) 5;
              AssessmentPage.Settle 0 (Some (Quiz.verdict true)) 6] in
  let c := AssessmentPage.run env (AssessmentPage.start env 0) evs in
  Quiz.evaluated env (AssessmentPage.start env 0) evs
    = [Quiz.verdict true; Quiz.verdict true] /\
  AssessmentPage.score (AssessmentPage.state c) = 1%nat /\
  AssessmentPage.results (AssessmentPage.state c) = [Quiz.verdict true] /\
  AssessmentPage.score (AssessmentPage.state c)
    <> Quiz.count_correct
         (Quiz.evaluated env (AssessmentPage.start env 0) evs).
Proof.
  vm_compute. repeat split. discriminate.
Qed.

(** With overlapping submissions the score can also go down: the
    response to a request started at score 0 arrives when the score is
    2 and sets it to 1. *)
Lemma overlapping_submissions_score_decreases :
  let env := Quiz.six_questions in
  let evs := [AssessmentPage.Change (lit "x");
              AssessmentPage.Submit; AssessmentPage.Submit;
              AssessmentPage.Settle 1 (Some (Quiz.verdict true)) 5;
              AssessmentPage.Change (lit "x"); AssessmentPage.Submit;
              AssessmentPage.Settle 1 (Some (Quiz.verdict true)) 6] in
  let c := AssessmentPage.run env (AssessmentPage.start env 0) evs in
  AssessmentPage.score (AssessmentPage.state c) = 2%nat /\
  AssessmentPage.score
    (AssessmentPage.state
       (AssessmentPage.step env c
          (AssessmentPage.Settle 0 (Some (Quiz.verdict true)) 7))) = 1%nat.
Proof.
  vm_compute. split; reflexivity.
Qed.

(** ** Assessment page: a whole session *)

Section WholeSession.
Import AssessmentPage Quiz.
Variables (env : Env) (qs : list Question) (a : jsstring).
Hypothesis env_questions : questions env = val qs.
Hypothesis answer_given : whitespace_only a = false.

Lemma answer_is_sent (q : Question) (s : State) :
  answers s !! id q = Some a ->
  submitAnswer env q s =
    Awaiting (PostEvaluateAnswer (bearer env) (sessionId env) (id q) a
                                 (timer s)).
Proof.
  intros Ha. unfold submitAnswer. rewrite (get_own _ _ _ Ha). simpl.
  destruct (trim a) as [|c l] eqn:Ht.
  - apply trim_empty_iff in Ht. congruence.
  - destruct a; [discriminate answer_given | reflexivity].
Qed.

(** One question answered: the score grows by one when the response is
    correct, and the page moves to the next question, or to the results
    after the last one. *)
Lemma answer_round_spec (c : Config) (r : EvalResponse) (now : Z) :
  left_page c = false ->
  inflight c = [] ->
  completed (state c) = false ->
  currentIndex (state c) < length qs ->
  let c' := run env c (answer_round a r now) in
  one_at_a_time env c (answer_round a r now) = true /\
  left_page c' = false /\
  inflight c' = [] /\
  score (state c') = score (state c) + count_correct [r] /\
  results (state c') = results (state c) ++ [r] /\
  (S (currentIndex (state c)) < length qs ->
   currentIndex (state c') = S (currentIndex (state c)) /\
   completed (state c') = false) /\
  (S (currentIndex (state c)) = length qs -> completed (state c') = true).
Proof.
  intros Hleft Hin Hopen Hidx.
  destruct (lookup_lt_is_Some_2 qs _ Hidx) as [q Hq].
  assert (Hcur : currentQuestion env (state c) = Some q).
  { unfold currentQuestion. rewrite env_questions. exact Hq. }
  destruct (render_open_question env _ _ Hcur Hopen)
    as (i & n & cls & v & e & Hr).
  set (s1 := handleAnswerChange q a (state c)).
  assert (Hcur1 : currentQuestion env s1 = Some q) by exact Hcur.
  assert (Ha : answers s1 !! id q = Some a)
    by (unfold s1, handleAnswerChange; simpl; apply lookup_insert_eq).
  destruct (render_open_question env s1 q Hcur1 Hopen)
    as (i1 & n1 & cls1 & v1 & e1 & Hr1).
  pose proof (answer_is_sent q s1 Ha) as Hsend.
  set (req := PostEvaluateAnswer (bearer env) (sessionId env) (id q) a
                                 (timer s1)) in Hsend.
  assert (E1 : step env c (Change a) = with_state s1 c).
  { unfold step. rewrite Hleft, Hr. reflexivity. }
  assert (E2 : step env (with_state s1 c) Submit =
               {| state := s1;
                  inflight := [{| sent := req; closure := s1 |}];
                  log := log c ++ [Http req]; left_page := false |}).
  { unfold step. cbn [left_page with_state state inflight log].
    rewrite Hleft, Hr1, Hsend, Hin. reflexivity. }
  unfold answer_round, run. cbn [fold_left one_at_a_time]. rewrite E1, E2.
  unfold step. cbn [left_page inflight state closure log with_state].
  rewrite Hin.
  change ([{| sent := req; closure := s1 |}] !! 0) with
    (Some {| sent := req; closure := s1 |}).
  cbn [closure].
  pose proof (settled_score env s1 s1 now r) as Hs.
  pose proof (settled_results env s1 s1 now r) as Hres.
  assert (Hmove :
    (S (currentIndex (state c)) < length qs ->
     currentIndex (fst (submitAnswer_settled env s1 now (Some r) s1))
       = S (currentIndex (state c)) /\
     completed (fst (submitAnswer_settled env s1 now (Some r) s1))
       = false) /\
    (S (currentIndex (state c)) = length qs ->
     completed (fst (submitAnswer_settled env s1 now (Some r) s1))
       = true)).
  { unfold submitAnswer_settled. rewrite env_questions.
    change (currentIndex s1) with (currentIndex (state c)).
    destruct (Z.of_nat (currentIndex (state c)) <? Z.of_nat (length qs) - 1)%Z
      eqn:Hlast;
      [apply Z.ltb_lt in Hlast | apply Z.ltb_ge in Hlast];
      (split; [intros Hnext | intros Hend]); try lia;
      destruct (is_correct r); cbn; try rewrite Hopen; auto with lia. }
  destruct (submitAnswer_settled env s1 now (Some r) s1) as [s' effs].
  cbn [fst state left_page inflight] in *.
  change (score s1) with (score (state c)) in Hs.
  change (results s1) with (results (state c)) in Hres.
  rewrite Hs, Hres. cbn [count_correct].
  split; [reflexivity|]. split; [reflexivity|]. split; [reflexivity|].
  split; [destruct (is_correct r); lia|]. split; [reflexivity|]. exact Hmove.
Qed.

(** A session that answers every remaining question. *)
Lemma session_spec (rs : list EvalResponse) (c : Config) :
  left_page c = false ->
  inflight c = [] ->
  completed (state c) = false ->
  rs <> [] ->
  currentIndex (state c) + length rs = length qs ->
  let c' := run env c (session a rs) in
  one_at_a_time env c (session a rs) = true /\
  completed (state c') = true /\
  score (state c') = score (state c) + count_correct rs /\
  results (state c') = results (state c) ++ rs.
Proof.
  revert c. induction rs as [|r rs IH]; intros c Hleft Hin Hopen Hne Hlen;
    [congruence|].
  simpl in Hlen.
  destruct (answer_round_spec c r 0 Hleft Hin Hopen ltac:(lia))
    as (Hseq & Hleft' & Hin' & Hs & Hr & Hnext & Hend).
  change (session a (r :: rs)) with (answer_round a r 0 ++ session a rs).
  cbv zeta. rewrite run_app, one_at_a_time_app, Hseq.
  destruct rs as [|r' rs].
  - simpl in Hlen.
    change (run env (run env c (answer_round a r 0)) (session a []))
      with (run env c (answer_round a r 0)).
    rewrite Hs, Hr. split; [reflexivity|]. split; [apply Hend; lia|].
    split; reflexivity.
  - destruct (Hnext ltac:(simpl in Hlen; lia)) as [Hidx Hopen'].
    destruct (IH _ Hleft' Hin' Hopen' ltac:(discriminate)
                ltac:(rewrite Hidx; simpl in Hlen |- *; lia))
      as (Hseq' & Hdone & Hs' & Hr').
    rewrite Hseq', Hs', Hr', Hs, Hr.
    split; [reflexivity|]. split; [exact Hdone|].
    split; [simpl; lia|].
    rewrite <- app_assoc. reflexivity.
Qed.

End WholeSession.

(** Every session in which each question gets an answer that is not
    blank ends on the results card; the card shows the number of correct
    responses over 6, whatever the number of questions. *)
Lemma session_reaches_results_card
      (env : AssessmentPage.Env) (qs : list Question) (a : jsstring)
      (rs : list AssessmentPage.EvalResponse) (now : Z) :
  AssessmentPage.questions env = val qs ->
  truthy truthy_string (AssessmentPage.sessionId env) = true ->
  whitespace_only a = false ->
  rs <> [] ->
  length rs = length qs ->
  Quiz.one_at_a_time env (AssessmentPage.start env now) (Quiz.session a rs)
    = true /\
  AssessmentPage.render env
    (AssessmentPage.state
       (AssessmentPage.run env (AssessmentPage.start env now)
          (Quiz.session a rs)))
  = AssessmentPage.ResultsCard
      (if (4 <=? Quiz.count_correct rs)%nat then AssessmentPage.CheckCircle
       else AssessmentPage.XCircle)
      (lit (String.append (nat_toString (Quiz.count_correct rs)) "/6"))
      (lit (if (4 <=? Quiz.count_correct rs)%nat
            then "Excellent work! You can move to the next topic."
            else "Good effort! Try another technique to improve your understanding.")).
Proof.
  intros Hqs Hsid Ha Hne Hlen.
  assert (Hstart : AssessmentPage.left_page (AssessmentPage.start env now)
                   = false).
  { unfold AssessmentPage.start, AssessmentPage.mount_effect,
      AssessmentPage.missing_state. cbn [AssessmentPage.left_page].
    rewrite Hsid, Hqs. reflexivity. }
  destruct (session_spec env qs a Hqs Ha rs (AssessmentPage.start env now)
              Hstart eq_refl eq_refl Hne Hlen) as (Hseq & Hdone & Hs & _).
  split; [exact Hseq|].
  unfold AssessmentPage.render. rewrite Hqs, Hdone, Hs.
  destruct qs as [|q qs']; [destruct rs; [congruence | discriminate Hlen]|].
  reflexivity.
Qed.

(** ** Assessment page: the results card *)

(** C3: once the session is completed the card shows the success icon
    and message when the score is at least 4 and the retry icon and
    message otherwise, and the score as "score/6" whatever the number of
    questions; a session of six questions with four correct answers ends
    on "4/6" with the success icon, with three correct answers on the
    retry icon. *)
Theorem C3_results_card
        (env : AssessmentPage.Env) (q : Question) (qs : list Question)
        (s : AssessmentPage.State)
        (a : jsstring) (rs : list AssessmentPage.EvalResponse) (now : Z) :
  AssessmentPage.questions env = val (q :: qs) ->
  (AssessmentPage.completed s = true ->
   (4 <= AssessmentPage.score s ->
    AssessmentPage.render env s =
      AssessmentPage.ResultsCard AssessmentPage.CheckCircle
        (lit (String.append (nat_toString (AssessmentPage.score s)) "/6"))
        (lit "Excellent work! You can move to the next topic.") /\
    AssessmentPage.finishAssessment s =
      [Toast ToastSuccess
         (lit (String.append "Great job! You scored "
                 (String.append (nat_toString (AssessmentPage.score s))
                    "/6. You can skip the remaining techniques!")))
         {| icon := None; duration := Some 5000%nat |};
       Navigate "/dashboard" None]) /\
   (AssessmentPage.score s < 4 ->
    AssessmentPage.render env s =
      AssessmentPage.ResultsCard AssessmentPage.XCircle
        (lit (String.append (nat_toString (AssessmentPage.score s)) "/6"))
        (lit "Good effort! Try another technique to improve your understanding.") /\
    AssessmentPage.finishAssessment s =
      [Toast ToastInfo
         (lit (String.append "You scored "
                 (String.append (nat_toString (AssessmentPage.score s))
                    "/6. Try another learning technique to improve!")))
         {| icon := None; duration := Some 5000%nat |};
       Navigate "/dashboard" None])) /\
  (length (q :: qs) = 6 ->
   length rs = 6 ->
   truthy truthy_string (AssessmentPage.sessionId env) = true ->
   whitespace_only a = false ->
   let shown :=
     AssessmentPage.render env
       (AssessmentPage.state
          (AssessmentPage.run env (AssessmentPage.start env now)
             (Quiz.session a rs))) in
   (Quiz.count_correct rs = 4 ->
    shown =
      AssessmentPage.ResultsCard AssessmentPage.CheckCircle (lit "4/6")
        (lit "Excellent work! You can move to the next topic.")) /\
   (Quiz.count_correct rs = 3 ->
    shown =
      AssessmentPage.ResultsCard AssessmentPage.XCircle (lit "3/6")
        (lit "Good effort! Try another technique to improve your understanding."))).
Proof.
  intros Hqs. split.
  - intros Hdone. split.
    + intros Hpass. apply Nat.leb_le in Hpass.
      unfold AssessmentPage.render, AssessmentPage.finishAssessment.
      rewrite Hqs, Hdone, Hpass. split; reflexivity.
    + intros Hfail. apply Nat.leb_gt in Hfail.
      unfold AssessmentPage.render, AssessmentPage.finishAssessment.
      rewrite Hqs, Hdone, Hfail. split; reflexivity.
  - intros Hsix Hrs Hsid Ha shown.
    assert (Hne : rs <> []) by (destruct rs; [discriminate Hrs | discriminate]).
    destruct (session_reaches_results_card env (q :: qs) a rs now
                Hqs Hsid Ha Hne ltac:(congruence)) as [_ Hshown].
    subst shown. rewrite Hshown.
    split; intros ->; reflexivity.
Qed.

Lemma C3_results_card_witness :
  let env := Quiz.six_questions in
  let rs := Quiz.verdicts [true; false; true; true; false; true] in
  let s := AssessmentPage.state
             (AssessmentPage.run env (AssessmentPage.start env 0)
                (Quiz.session (lit "x") rs)) in
  AssessmentPage.completed s = true /\
  AssessmentPage.score s = 4%nat /\
  AssessmentPage.render env s =
    AssessmentPage.ResultsCard AssessmentPage.CheckCircle (lit "4/6")
      (lit "Excellent work! You can move to the next topic.").
Proof.
  intros env rs s.
  assert (Hdone : AssessmentPage.completed s = true)
    by (vm_compute; reflexivity).
  assert (Hscore : AssessmentPage.score s = 4%nat)
    by (vm_compute; reflexivity).
  split; [exact Hdone|]. split; [exact Hscore|].
  destruct (C3_results_card env (Quiz.mk_question "q1") _ s (lit "x") rs 0
              eq_refl) as [_ Hrun].
  exact (proj1 (Hrun eq_refl eq_refl eq_refl eq_refl) eq_refl).
Defined.

Example two_questions_are_shown_over_six :
  AssessmentPage.render Quiz.two_questions
    (AssessmentPage.state
       (AssessmentPage.run Quiz.two_questions
          (AssessmentPage.start Quiz.two_questions 0)
          (Quiz.session (lit "x") (Quiz.verdicts [true; true]))))
  = AssessmentPage.ResultsCard AssessmentPage.XCircle (lit "2/6")
      (lit "Good effort! Try another technique to improve your understanding.").
Proof. vm_compute. reflexivity. Qed.

(* ===================================================================== *)
(** * Further properties *)
(* ===================================================================== *)

(** ** App.js: the route guard and the stored session *)

Section Guard.
Import App.




Lemma open_persisted (st : State) :
  settled_session st ->
  open (Session.persisted st) = {| state := st; storage := Session.persisted st |}.
Proof.
  unfold settled_session, open, Session.persisted, mount_effects,
    token_effect, user_effect, initial.
  destruct st as [[| |t] [| |u]]; simpl; try contradiction.
  - reflexivity.
  - intros Ht. rewrite Ht. simpl. rewrite Ht. reflexivity.
Qed.

Lemma step_settled (w : World) (ev : event) :
  settled_session (state w) ->
  storage w = Session.persisted (state w) ->
  Session.carries_both ev = true ->
  settled_session (state (step w ev)).
Proof.
  intros Hst Hls Hev. destruct ev as [t u| |].
  - simpl in Hev. apply andb_prop in Hev as [Ht Hu].
    destruct t as [| |t]; try discriminate Ht.
    destruct u as [| |u]; try discriminate Hu. exact Ht.
  - exact I.
  - unfold step. rewrite Hls, (open_persisted _ Hst). exact Hst.
Qed.

Lemma open_settled (ls : Storage) :
  Session.well_stored ls = true -> settled_session (state (open ls)).
Proof.
  unfold Session.well_stored, settled_session, open, initial.
  destruct ls as [[t|] [u|]]; simpl; try discriminate; auto.
Qed.

Lemma run_settled (evs : list event) (w : World) :
  settled_session (state w) ->
  Session.coherent w ->
  forallb Session.carries_both evs = true ->
  settled_session (state (run w evs)) /\ Session.coherent (run w evs).
Proof.
  revert w. induction evs as [|ev evs IH]; intros w Hst Hw Hevs; [auto|].
  simpl in Hevs. apply andb_prop in Hevs as [Hev Hevs].
  simpl. apply IH; [|apply step_coherent; assumption|exact Hevs].
  apply step_settled; [exact Hst | exact (proj2 Hw) | exact Hev].
Qed.

End Guard.

(** X2: what the effects write is what the next start reads: in every
    state the store goes through, reloading the application gives back
    the same token, the same user and the same storage. *)
Theorem X2_reload_restores_session (ls : App.Storage)
        (evs : list App.event) :
  Session.well_stored ls = true ->
  forallb Session.carries_both evs = true ->
  App.step (App.run (App.open ls) evs) App.Reload
    = App.run (App.open ls) evs.
Proof.
  intros Hls Hevs.
  destruct (run_settled evs (App.open ls) (open_settled ls Hls)
              (well_stored_open ls Hls) Hevs) as [Hst [_ Hsto]].
  destruct (App.run (App.open ls) evs) as [st sto]. simpl in *.
  subst sto. apply open_persisted. exact Hst.
Qed.

Lemma X2_reload_restores_witness :
  let u := {| user_email := lit "a@b.c"; user_education_level := "school";
              user_sub_level := Some "middle"; user_board := Some "cbse" |} in
  let evs := [App.Login (val "t1") (val u)] in
  Session.well_stored App.clear = true /\
  forallb Session.carries_both evs = true /\
  App.state (App.step (App.run (App.open App.clear) evs) App.Reload)
    = {| App.token := val "t1"; App.user := val u |}.
Proof.
  intros u evs. split; [reflexivity|]. split; [reflexivity|].
  rewrite (X2_reload_restores_session App.clear evs eq_refl eq_refl).
  reflexivity.
Defined.

(** X3: logging out works from any state, also one in which the cells
    and the storage disagree: both cells are [null], the storage is
    empty, a reload changes nothing, no route renders a guarded page and
    the auth route shows the form. *)
Theorem X3_logout_from_any_state (w : App.World) :
  let w' := App.step w App.Logout in
  App.state w' = {| App.token := null; App.user := null |} /\
  App.storage w' = App.clear /\
  App.step w' App.Reload = w' /\
  (forall path name u, App.route (App.state w') path <> App.Page name u) /\
  App.route (App.state w') "/auth" = App.AuthPage.
Proof.
  intros w'.
  assert (Hw : w' = {| App.state := {| App.token := null; App.user := null |};
                       App.storage := App.clear |}).
  { subst w'. unfold App.step, App.handleLogout, App.update_effects. simpl.
    case_decide; destruct (App.same_user (App.user (App.state w)) null);
      reflexivity. }
  rewrite Hw. simpl. repeat split; try reflexivity.
  intros path name u. unfold App.route. simpl.
  repeat match goal with
         | |- context [String.eqb path ?s] => destruct (String.eqb path s)
         end; discriminate.
Qed.

(** ** AuthPage.js: the form *)

Section AuthForm.
Import AuthPage AuthFlow.

Lemma handleSubmit_loading (f : Form) :
  loading (fst (handleSubmit f)) = existsb is_http (snd (handleSubmit f)).
Proof.
  unfold handleSubmit.
  destruct (isLogin f); [reflexivity|].
  destruct (truthy_string (educationLevel f)); [|reflexivity].
  destruct (String.eqb (educationLevel f) "school"
            && (negb (truthy_string (subLevel f))
                || negb (truthy_string (board f)))); reflexivity.
Qed.

Lemma handleSubmit_shape (f : Form) :
  form_consistent f -> Forall signup_shape (snd (handleSubmit f)).
Proof.
  intros [_ Hother]. unfold handleSubmit.
  destruct (isLogin f); [repeat constructor|].
  destruct (truthy_string (educationLevel f)) eqn:Hlevel;
    [|repeat constructor].
  assert (Hne : educationLevel f <> "").
  { intros E. apply truthy_string_false in E. congruence. }
  destruct (String.eqb (educationLevel f) "school") eqn:Hschool.
  - apply String.eqb_eq in Hschool.
    destruct (truthy_string (subLevel f)) eqn:Hsub;
      [|repeat constructor].
    destruct (truthy_string (board f)) eqn:Hboard; [|repeat constructor].
    simpl. constructor; [|constructor]. simpl.
    unfold or_null. rewrite Hsub, Hboard.
    split; [exact Hne|]. split; [eauto | congruence].
  - apply String.eqb_neq in Hschool. simpl.
    destruct (Hother Hschool) as [Hs Hb].
    constructor; [|constructor]. simpl. rewrite Hs, Hb.
    split; [exact Hne|]. split; [contradiction | auto].
Qed.

Lemma handleSubmit_settled_shape (f : Form) (r : reply) :
  Forall signup_shape (snd (handleSubmit_settled f r)).
Proof. destruct r; repeat constructor. Qed.

Lemma handleSubmit_consistent (f : Form) :
  form_consistent f -> form_consistent (fst (handleSubmit f)).
Proof.
  intros H. unfold handleSubmit.
  destruct (isLogin f); [exact H|].
  destruct (truthy_string (educationLevel f)); [|exact H].
  destruct (String.eqb (educationLevel f) "school"
            && (negb (truthy_string (subLevel f))
                || negb (truthy_string (board f)))); exact H.
Qed.

Lemma handleEducationChange_consistent (v : string) (f : Form) :
  form_consistent (handleEducationChange v f).
Proof.
  unfold form_consistent, handleEducationChange. simpl.
  split; [reflexivity|].
  intros Hv. apply String.eqb_neq in Hv. rewrite Hv. auto.
Qed.

(** Every event keeps the cells of the form in agreement. *)
Lemma step_form_consistent (c : Config) (ev : event) :
  form_consistent (form c) -> form_consistent (form (step c ev)).
Proof.
  intros H. unfold step. destruct (left_page c); [exact H|].
  destruct ev as [v|v|v|v|v| | |k r]; simpl.
  - exact H.
  - exact H.
  - destruct (isLogin (form c)); [exact H|].
    apply handleEducationChange_consistent.
  - destruct (negb (isLogin (form c)) && showSubLevel (form c)) eqn:Hshown;
      [|exact H].
    apply andb_prop in Hshown as [_ Hshown].
    destruct H as [Hshow Hother]. split; [exact Hshow|].
    simpl. intros Hne. apply String.eqb_neq in Hne. congruence.
  - destruct (negb (isLogin (form c)) && showSubLevel (form c)) eqn:Hshown;
      [|exact H].
    apply andb_prop in Hshown as [_ Hshown].
    destruct H as [Hshow Hother]. split; [exact Hshow|].
    simpl. intros Hne. apply String.eqb_neq in Hne. congruence.
  - exact H.
  - destruct (loading (form c)); [exact H|].
    pose proof (handleSubmit_consistent _ H) as H'.
    destruct (handleSubmit (form c)) as [f' effs]. exact H'.
  - destruct (pending c !! k); [|exact H]. destruct r; exact H.
Qed.

Lemma step_log_shape (c : Config) (ev : event) :
  form_consistent (form c) ->
  Forall form_consistent (pending c) ->
  Forall signup_shape (log c) ->
  Forall signup_shape (log (step c ev)).
Proof.
  intros Hf Hp Hl. unfold step. destruct (left_page c); [exact Hl|].
  destruct ev as [v|v|v|v|v| | |k r]; simpl; try exact Hl.
  - destruct (isLogin (form c)); exact Hl.
  - destruct (negb (isLogin (form c)) && showSubLevel (form c)); exact Hl.
  - destruct (negb (isLogin (form c)) && showSubLevel (form c)); exact Hl.
  - destruct (loading (form c)); [exact Hl|].
    pose proof (handleSubmit_shape _ Hf) as Hs.
    destruct (handleSubmit (form c)) as [f' effs]. simpl in *.
    apply Forall_app. auto.
  - destruct (pending c !! k); [|exact Hl]. simpl.
    apply Forall_app. split; [exact Hl|].
    apply handleSubmit_settled_shape.
Qed.

Lemma step_pending_consistent (c : Config) (ev : event) :
  form_consistent (form c) ->
  Forall form_consistent (pending c) ->
  Forall form_consistent (pending (step c ev)).
Proof.
  intros Hf Hp. unfold step. destruct (left_page c); [exact Hp|].
  destruct ev as [v|v|v|v|v| | |k r]; simpl; try exact Hp.
  - destruct (isLogin (form c)); exact Hp.
  - destruct (negb (isLogin (form c)) && showSubLevel (form c)); exact Hp.
  - destruct (negb (isLogin (form c)) && showSubLevel (form c)); exact Hp.
  - destruct (loading (form c)); [exact Hp|].
    destruct (handleSubmit (form c)) as [f' effs]. simpl.
    destruct (existsb is_http effs); [|exact Hp].
    apply Forall_app. split; [exact Hp|]. constructor; [exact Hf|constructor].
  - destruct (pending c !! k); [|exact Hp]. simpl.
    apply Forall_delete. exact Hp.
Qed.

Lemma run_form_invariants (evs : list event) (c : Config) :
  form_consistent (form c) ->
  Forall form_consistent (pending c) ->
  Forall signup_shape (log c) ->
  form_consistent (form (run c evs)) /\
  Forall signup_shape (log (run c evs)).
Proof.
  revert c. induction evs as [|ev evs IH]; intros c Hf Hp Hl; [auto|].
  simpl. apply IH.
  - apply step_form_consistent, Hf.
  - apply step_pending_consistent; assumption.
  - apply step_log_shape; assumption.
Qed.

(** Every event keeps at most one request in flight. *)
Lemma step_single_flight (c : Config) (ev : event) :
  single_flight c -> single_flight (step c ev).
Proof.
  intros H. unfold step. destruct (left_page c); [exact H|].
  destruct ev as [v|v|v|v|v| | |k r]; simpl; try exact H.
  - destruct (isLogin (form c)); exact H.
  - destruct (negb (isLogin (form c)) && showSubLevel (form c)); exact H.
  - destruct (negb (isLogin (form c)) && showSubLevel (form c)); exact H.
  - destruct (loading (form c)) eqn:Hload; [exact H|].
    destruct H as [[Hp _] | (cl & _ & Habs)]; [|congruence].
    pose proof (handleSubmit_loading (form c)) as Hl.
    destruct (handleSubmit (form c)) as [f' effs]. simpl in *.
    unfold single_flight. simpl. rewrite Hp, Hl.
    destruct (existsb is_http effs); [right; eauto | left; auto].
  - destruct (pending c !! k) as [cl|] eqn:Hk; [|exact H].
    unfold single_flight. simpl. left.
    destruct H as [[Hp _] | (cl' & Hp & _)]; rewrite Hp in *.
    + destruct k; discriminate Hk.
    + destruct k as [|k]; [|destruct k; discriminate Hk].
      split; [reflexivity|]. destruct r; reflexivity.
Qed.

Lemma run_single_flight (evs : list event) (c : Config) :
  single_flight c -> single_flight (run c evs).
Proof.
  revert c. induction evs as [|ev evs IH]; intros c H; [exact H|].
  simpl. apply IH, step_single_flight, H.
Qed.

Lemma step_left_no_pending (c : Config) (ev : event) :
  single_flight c ->
  (left_page c = true -> pending c = []) ->
  left_page (step c ev) = true -> pending (step c ev) = [].
Proof.
  intros Hs H. unfold step. destruct (left_page c) eqn:Hleft;
    [rewrite Hleft; intros _; exact (H eq_refl)|].
  destruct ev as [v|v|v|v|v| | |k r]; simpl; try congruence.
  - destruct (isLogin (form c)); simpl; congruence.
  - destruct (negb (isLogin (form c)) && showSubLevel (form c)); simpl;
      congruence.
  - destruct (negb (isLogin (form c)) && showSubLevel (form c)); simpl;
      congruence.
  - destruct (loading (form c)); [congruence|].
    destruct (handleSubmit (form c)) as [f' effs]. simpl. congruence.
  - destruct (pending c !! k) as [cl|] eqn:Hk; [|congruence]. simpl.
    intros _. destruct Hs as [[Hp _] | (cl' & Hp & _)]; rewrite Hp in *.
    + destruct k; discriminate Hk.
    + destruct k as [|k]; [reflexivity | destruct k; discriminate Hk].
Qed.

Lemma run_left_no_pending (evs : list event) (c : Config) :
  single_flight c ->
  (left_page c = true -> pending c = []) ->
  left_page (run c evs) = true -> pending (run c evs) = [].
Proof.
  revert c. induction evs as [|ev evs IH]; intros c Hs H; [exact H|].
  simpl. apply IH; [apply step_single_flight, Hs|].
  apply step_left_no_pending; assumption.
Qed.

End AuthForm.

(** X4: whatever is typed, selected and toggled, in whatever order, a
    signup request that leaves the page names an education level, carries
    sub level and board when the level is ["school"], and carries [null]
    for both when it is another level. *)
Theorem X4_signup_request_shape (evs : list AuthFlow.event) :
  Forall AuthFlow.signup_shape
         (AuthFlow.log (AuthFlow.run AuthFlow.start evs)) /\
  AuthFlow.form_consistent (AuthFlow.form (AuthFlow.run AuthFlow.start evs)).
Proof.
  destruct (run_form_invariants evs AuthFlow.start) as [Hf Hl].
  - split; [reflexivity|]. auto.
  - constructor.
  - constructor.
  - auto.
Qed.

Example school_details_are_dropped_with_the_level :
  AuthFlow.log
    (AuthFlow.run AuthFlow.start
       [AuthFlow.SelectEducation "school"; AuthFlow.SelectSubLevel "middle";
        AuthFlow.SelectBoard "cbse"; AuthFlow.SelectEducation "college";
        AuthFlow.TypeEmail (lit "a@b.c"); AuthFlow.TypePassword (lit "pw");
        AuthFlow.PressSubmit]) =
    [Http (PostSignup (lit "a@b.c") (lit "pw") "college" None None)].
Proof. reflexivity. Qed.

(** X5: the form never has two authentication requests in flight: while
    one is pending the submit button is disabled and pressing it does
    nothing, and it is enabled again once the request has settled. *)
Theorem X5_one_auth_request_at_a_time (evs : list AuthFlow.event) :
  let c := AuthFlow.run AuthFlow.start evs in
  length (AuthFlow.pending c) <= 1 /\
  (AuthFlow.pending c <> [] <-> AuthPage.loading (AuthFlow.form c) = true) /\
  (AuthFlow.pending c <> [] ->
   AuthFlow.step c AuthFlow.PressSubmit = c) /\
  (forall r,
      AuthFlow.pending c <> [] ->
      AuthFlow.pending (AuthFlow.step c (AuthFlow.Settle 0 r)) = [] /\
      AuthPage.loading (AuthFlow.form (AuthFlow.step c (AuthFlow.Settle 0 r)))
        = false).
Proof.
  intros c.
  assert (H : AuthFlow.single_flight c).
  { apply run_single_flight. left. split; reflexivity. }
  assert (Hleft : AuthFlow.left_page c = true -> AuthFlow.pending c = []).
  { apply run_left_no_pending; [left; split; reflexivity | discriminate]. }
  destruct H as [[Hp Hl] | (cl & Hp & Hl)].
  - rewrite Hp, Hl. simpl. split; [lia|]. split; [split; congruence|].
    split; congruence.
  - split; [rewrite Hp; simpl; lia|].
    split; [rewrite Hp, Hl; split; congruence|].
    split.
    + intros _. unfold AuthFlow.step. rewrite Hl.
      destruct (AuthFlow.left_page c); reflexivity.
    + intros r _.
      destruct (AuthFlow.left_page c) eqn:Hc;
        [specialize (Hleft eq_refl); congruence|].
      unfold AuthFlow.step. rewrite Hc, Hp. simpl.
      split; [reflexivity|]. destruct r; reflexivity.
Qed.

Lemma X5_one_auth_request_witness :
  let evs := [AuthFlow.ToggleMode; AuthFlow.TypeEmail (lit "a@b.c");
              AuthFlow.TypePassword (lit "pw"); AuthFlow.PressSubmit] in
  let c := AuthFlow.run AuthFlow.start evs in
  AuthFlow.pending c <> [] /\
  AuthFlow.log c = [Http (PostLogin (lit "a@b.c") (lit "pw"))] /\
  AuthFlow.step c AuthFlow.PressSubmit = c.
Proof.
  intros evs c.
  assert (H : AuthFlow.pending c <> []) by discriminate.
  split; [exact H|]. split; [reflexivity|].
  exact (proj1 (proj2 (proj2 (X5_one_auth_request_at_a_time evs))) H).
Defined.

(** ** Dashboard.js and the way to the learning page *)

Lemma startLearning_cases (topic : jsstring) (technique : string) :
  Dashboard.startLearning topic technique =
    if whitespace_only topic
    then [Toast ToastError (lit "Please enter a topic to learn") no_opts]
    else [Navigate "/learn" (Some (LearnState topic technique))].
Proof.
  unfold Dashboard.startLearning.
  destruct (whitespace_only topic) eqn:Hw.
  - rewrite (trim_whitespace_only topic Hw). reflexivity.
  - destruct (trim topic) as [|c l] eqn:Ht; [|reflexivity].
    apply trim_empty_iff in Ht. congruence.
Qed.

(** X6: [startLearning] navigates exactly when the topic has a code unit
    that is not white space, and then hands the topic over as it was
    typed, surrounding white space included; otherwise it shows the error
    toast. *)
Theorem X6_startLearning_by_topic (topic : jsstring) (technique : string) :
  (existsb is_navigate (Dashboard.startLearning topic technique)
     = negb (whitespace_only topic)) /\
  Dashboard.startLearning topic technique =
    if whitespace_only topic
    then [Toast ToastError (lit "Please enter a topic to learn") no_opts]
    else [Navigate "/learn" (Some (LearnState topic technique))].
Proof.
  rewrite startLearning_cases.
  split; [|reflexivity]. destruct (whitespace_only topic); reflexivity.
Qed.

(** X7: every navigation the dashboard starts with one of its technique
    buttons is accepted by the learning page: read as its navigation
    state, it passes the guard on mount, and exactly the request for the
    content of that topic and technique is sent. *)
Theorem X7_dashboard_navigation_is_accepted
        (topic : jsstring) (technique : string) (token : nullable string)
        (path : string) (st : option nav_state) :
  technique <> "" ->
  In (Navigate path st) (Dashboard.startLearning topic technique) ->
  path = "/learn" /\
  LearningPage.mount_effect token (Handoff.learning_location st) =
    (true, [Http (PostGenerateContent token topic technique)]).
Proof.
  intros Htech Hin. rewrite startLearning_cases in Hin.
  destruct (whitespace_only topic) eqn:Hw.
  - destruct Hin as [H | []]. discriminate H.
  - destruct Hin as [H | []]. injection H as <- <-.
    split; [reflexivity|].
    unfold LearningPage.mount_effect. simpl.
    destruct topic as [|c l]; [discriminate Hw|]. simpl.
    destruct (truthy_string technique) eqn:Ht; [reflexivity|].
    apply truthy_string_false in Ht. contradiction.
Qed.

Lemma X7_dashboard_navigation_witness :
  "video" <> "" /\
  In (Navigate "/learn" (Some (LearnState (lit "Tides") "video")))
     (Dashboard.startLearning (lit "Tides") "video") /\
  LearningPage.mount_effect (val "tok")
    (Handoff.learning_location (Some (LearnState (lit "Tides") "video"))) =
    (true, [Http (PostGenerateContent (val "tok") (lit "Tides") "video")]).
Proof.
  assert (H1 : "video" <> "") by discriminate.
  assert (H2 : In (Navigate "/learn" (Some (LearnState (lit "Tides") "video")))
                  (Dashboard.startLearning (lit "Tides") "video"))
    by (left; reflexivity).
  split; [exact H1|]. split; [exact H2|].
  exact (proj2 (X7_dashboard_navigation_is_accepted (lit "Tides") "video"
                  (val "tok") _ _ H1 H2)).
Defined.

(** ** LearningPage.js: from the content to the assessment *)

Section Proceed.
Import LearningFlow.

Lemma pressed_both (p : Props) (c : payload) (qs : list Question)
      (sid : nullable string) :
  pressed p c (Some qs) (Some sid) =
    [Perform (Toast ToastInfo (lit "Generating questions...") no_opts);
     Request (PostGenerateQuestions (bearer p) (topic p)
                (contentStr (technique p) c) (technique p) 1);
     Request (PostCreateSession (bearer p) (topic p) (technique p) c qs);
     Perform (Navigate "/assess"
                (Some (AssessState sid qs (topic p) (technique p))))].
Proof. reflexivity. Qed.

Lemma pressed_navigation (p : Props) (c : payload)
      (r1 : option (list Question)) (r2 : option (nullable string))
      (path : string) (st : option nav_state) :
  In (Perform (Navigate path st)) (pressed p c r1 r2) ->
  exists qs sid,
    r1 = Some qs /\ r2 = Some sid /\ path = "/assess" /\
    st = Some (AssessState sid qs (topic p) (technique p)).
Proof.
  destruct r1 as [qs|], r2 as [sid|]; simpl;
    intros H; repeat (destruct H as [H | H]; try discriminate H);
    try contradiction.
  injection H as <- <-. eauto 10.
Qed.

End Proceed.

(** X8: one press of "Continue to Questions" sends the request for the
    questions, sends the request that creates the session only when the
    questions came back, and navigates to the assessment only when both
    requests were fulfilled, with the questions of the first response and
    the session id of the second; every other outcome ends in exactly one
    error toast and no navigation, and a session request that failed
    after the questions were generated is followed by nothing else. *)
Theorem X8_proceed_navigates_after_both_requests
        (p : LearningFlow.Props) (c : LearningFlow.payload)
        (r1 : option (list Question)) (r2 : option (nullable string)) :
  let acts := LearningFlow.pressed p c r1 r2 in
  existsb LearningFlow.is_navigation acts
    = bool_decide (is_Some r1) && bool_decide (is_Some r2) /\
  existsb LearningFlow.is_create_session acts = bool_decide (is_Some r1) /\
  length (List.filter LearningFlow.is_request acts)
    = (if bool_decide (is_Some r1) then 2 else 1) /\
  length (List.filter LearningFlow.is_failure_toast acts)
    = (if bool_decide (is_Some r1) && bool_decide (is_Some r2)
       then 0 else 1) /\
  (forall path st,
      In (LearningFlow.Perform (Navigate path st)) acts ->
      exists qs sid,
        r1 = Some qs /\ r2 = Some sid /\ path = "/assess" /\
        st = Some (AssessState sid qs (LearningFlow.topic p)
                               (LearningFlow.technique p))) /\
  (forall qs, r1 = Some qs -> r2 = None ->
      last acts =
        Some (LearningFlow.Perform
                (Toast ToastError (lit "Failed to generate questions")
                       no_opts))).
Proof.
  intros acts. subst acts.
  split; [destruct r1, r2; reflexivity|].
  split; [destruct r1, r2; reflexivity|].
  split; [destruct r1, r2; reflexivity|].
  split; [destruct r1, r2; reflexivity|].
  split; [intros path st; apply pressed_navigation|].
  intros qs -> ->. reflexivity.
Qed.

Example video_content_is_sent_as_json_text :
  LearningFlow.proceedToQuestions
    {| LearningFlow.topic := lit "Tides"; LearningFlow.technique := "video";
       LearningFlow.bearer := val "tok" |}
    (LearningFlow.Video (lit "abc123") (lit "Tides") (lit "How tides work")) =
    [LearningFlow.Perform
       (Toast ToastInfo (lit "Generating questions...") no_opts);
     LearningFlow.Request
       (LearningFlow.PostGenerateQuestions (val "tok") (lit "Tides")
          (LearningFlow.Stringified
             (LearningFlow.Video (lit "abc123") (lit "Tides")
                                 (lit "How tides work")))
          "video" 1)].
Proof. reflexivity. Qed.

Section FirstRender.
Import AssessmentPage.



End FirstRender.



(** ** AssessmentPage.js: what holds along every visit *)

Section Inert.
Import AssessmentPage.
Variable env : Env.

Lemma run_left (evs : list event) (c : Config) :
  left_page c = true -> run env c evs = c.
Proof.
  intros H. induction evs as [|ev evs IH]; [reflexivity|].
  simpl. assert (E : step env c ev = c) by (unfold step; rewrite H; reflexivity).
  rewrite E. exact IH.
Qed.

Lemma render_no_questions (s : State) :
  questions env = val [] -> render env s = LoadingQuestions.
Proof. intros H. unfold render. rewrite H. reflexivity. Qed.

Lemma step_no_questions (c : Config) (ev : event) :
  questions env = val [] ->
  inflight c = [] ->
  inflight (step env c ev) = [] /\
  log (step env c ev) = log c /\
  left_page (step env c ev) = left_page c.
Proof.
  intros Hqs Hin. unfold step. destruct (left_page c) eqn:Hleft; [auto|].
  destruct ev as [now|value| |k reply now|];
    rewrite ?(render_no_questions _ Hqs); auto.
  rewrite Hin. destruct k; auto.
Qed.

Lemma run_no_questions (evs : list event) (c : Config) :
  questions env = val [] ->
  inflight c = [] ->
  inflight (run env c evs) = [] /\
  log (run env c evs) = log c /\
  left_page (run env c evs) = left_page c.
Proof.
  intros Hqs. revert c. induction evs as [|ev evs IH]; intros c Hin; [auto|].
  destruct (step_no_questions c ev Hqs Hin) as (Hin' & Hlog & Hleft).
  destruct (IH _ Hin') as (H1 & H2 & H3).
  simpl. rewrite H2, H3. auto.
Qed.

End Inert.

(** X10: opened without a session id or without questions (a direct URL,
    a reload), the assessment page redirects to the dashboard and nothing
    the user or the clock does afterwards has any effect: no request is
    sent and no answer, score or result is recorded. *)
Theorem X10_assessment_without_state_is_inert
        (env : AssessmentPage.Env) (now : Z)
        (evs : list AssessmentPage.event) :
  AssessmentPage.missing_state env = true ->
  AssessmentPage.run env (AssessmentPage.start env now) evs =
    {| AssessmentPage.state := AssessmentPage.initial now;
       AssessmentPage.inflight := [];
       AssessmentPage.log := [Navigate "/dashboard" None];
       AssessmentPage.left_page := true |}.
Proof.
  intros H.
  assert (Hstart : AssessmentPage.start env now =
            {| AssessmentPage.state := AssessmentPage.initial now;
               AssessmentPage.inflight := [];
               AssessmentPage.log := [Navigate "/dashboard" None];
               AssessmentPage.left_page := true |}).
  { unfold AssessmentPage.start, AssessmentPage.mount_effect.
    rewrite H. reflexivity. }
  rewrite Hstart. apply run_left. reflexivity.
Qed.

Lemma X10_assessment_without_state_witness :
  let env := {| AssessmentPage.sessionId := undefined;
                AssessmentPage.questions := undefined;
                AssessmentPage.bearer := val "tok" |} in
  AssessmentPage.missing_state env = true /\
  AssessmentPage.log
    (AssessmentPage.run env (AssessmentPage.start env 0)
       [AssessmentPage.Change (lit "x"); AssessmentPage.Submit;
        AssessmentPage.Tick 100]) = [Navigate "/dashboard" None].
Proof.
  intros env. split; [reflexivity|].
  rewrite (X10_assessment_without_state_is_inert env 0 _ eq_refl).
  reflexivity.
Defined.

(** X11: with a session id and an empty list of questions the page
    neither redirects nor completes: in every state of the visit it shows
    the loading text, and no request is ever sent. *)
Theorem X11_empty_question_list_stays_loading
        (env : AssessmentPage.Env) (now : Z)
        (evs : list AssessmentPage.event) :
  truthy truthy_string (AssessmentPage.sessionId env) = true ->
  AssessmentPage.questions env = val [] ->
  let c := AssessmentPage.run env (AssessmentPage.start env now) evs in
  AssessmentPage.render env (AssessmentPage.state c)
    = AssessmentPage.LoadingQuestions /\
  AssessmentPage.log c = [] /\
  AssessmentPage.inflight c = [] /\
  AssessmentPage.left_page c = false.
Proof.
  intros Hsid Hqs c.
  assert (Hstart : AssessmentPage.mount_effect env = []).
  { unfold AssessmentPage.mount_effect, AssessmentPage.missing_state.
    rewrite Hsid, Hqs. reflexivity. }
  destruct (run_no_questions env evs (AssessmentPage.start env now) Hqs
              eq_refl) as (Hin & Hlog & Hleft).
  split; [apply render_no_questions, Hqs|].
  subst c. rewrite Hlog, Hleft, Hin.
  unfold AssessmentPage.start. simpl. rewrite Hstart.
  repeat split; reflexivity.
Qed.

Lemma X11_empty_question_list_witness :
  let env := Quiz.env_of [] in
  truthy truthy_string (AssessmentPage.sessionId env) = true /\
  AssessmentPage.questions env = val [] /\
  AssessmentPage.render env
    (AssessmentPage.state
       (AssessmentPage.run env (AssessmentPage.start env 0)
          [AssessmentPage.Submit; AssessmentPage.Continue]))
  = AssessmentPage.LoadingQuestions.
Proof.
  intros env. split; [reflexivity|]. split; [reflexivity|].
  exact (proj1 (X11_empty_question_list_stays_loading env 0
                  [AssessmentPage.Submit; AssessmentPage.Continue]
                  eq_refl eq_refl)).
Defined.

Section AnyVisit.
Import AssessmentPage.
Variables (env : Env) (qs : list Question).
Hypothesis env_questions : questions env = val qs.

Lemma settled_index (cl cur : State) (now : Z) (reply : option EvalResponse) :
  currentIndex cl < length qs ->
  currentIndex cur < length qs ->
  currentIndex (fst (submitAnswer_settled env cl now reply cur)) < length qs.
Proof.
  intros Hcl Hcur. unfold submitAnswer_settled. rewrite env_questions.
  destruct reply as [data|]; [|exact Hcur].
  destruct (Z.of_nat (currentIndex cl) <? Z.of_nat (length qs) - 1)%Z
    eqn:Hlast; destruct (is_correct data); cbn; try exact Hcur;
    apply Z.ltb_lt in Hlast; lia.
Qed.

Lemma step_index_in_range (c : Config) (ev : event) :
  index_in_range qs c -> index_in_range qs (step env c ev).
Proof.
  intros [Hidx Hcl]. unfold step. destruct (left_page c); [split; auto|].
  destruct ev as [now|value| |k reply now|].
  - split; auto.
  - destruct (render env (state c)); split; auto.
  - destruct (render env (state c)); try (split; auto; fail).
    destruct (submitAnswer env q (state c)); split; auto.
    simpl. apply Forall_app. split; [exact Hcl|]. constructor; auto.
  - destruct (inflight c !! k) as [p|] eqn:Hp; [|split; auto].
    assert (Hpc : currentIndex (closure p) < length qs).
    { rewrite Forall_forall in Hcl. apply Hcl.
      eapply list_elem_of_lookup_2, Hp. }
    pose proof (settled_index (closure p) (state c) now reply Hpc Hidx) as H.
    destruct (submitAnswer_settled env (closure p) now reply (state c))
      as [s' effs]. simpl in *.
    split; [exact H|]. apply Forall_delete. exact Hcl.
  - destruct (render env (state c)); split; auto.
Qed.

Lemma run_index_in_range (evs : list event) (c : Config) :
  index_in_range qs c -> index_in_range qs (run env c evs).
Proof.
  revert c. induction evs as [|ev evs IH]; intros c H; [exact H|].
  simpl. apply IH, step_index_in_range, H.
Qed.

Lemma render_in_range (s : State) :
  currentIndex s < length qs -> render env s <> RenderError.
Proof.
  intros H. unfold render. rewrite env_questions.
  destruct qs as [|q0 qs'] eqn:E; [discriminate|].
  destruct (completed s); [discriminate|].
  unfold currentQuestion. rewrite env_questions.
  destruct (lookup_lt_is_Some_2 (q0 :: qs') _ H) as [q Hq].
  rewrite Hq. discriminate.
Qed.

(** Once completed, always completed. *)
Lemma settled_completed (cl cur : State) (now : Z)
      (reply : option EvalResponse) :
  completed cur = true ->
  completed (fst (submitAnswer_settled env cl now reply cur)) = true.
Proof.
  intros H. unfold submitAnswer_settled. rewrite env_questions.
  destruct reply as [data|]; [|exact H].
  destruct (Z.of_nat (currentIndex cl) <? Z.of_nat (length qs) - 1)%Z;
    destruct (is_correct data); cbn; auto.
Qed.

Lemma step_completed (c : Config) (ev : event) :
  completed (state c) = true -> completed (state (step env c ev)) = true.
Proof.
  intros H. unfold step. destruct (left_page c); [exact H|].
  destruct ev as [now|value| |k reply now|].
  - exact H.
  - destruct (render env (state c)); exact H.
  - destruct (render env (state c)); try exact H.
    destruct (submitAnswer env q (state c)); exact H.
  - destruct (inflight c !! k) as [p|]; [|exact H].
    pose proof (settled_completed (closure p) (state c) now reply H) as H'.
    destruct (submitAnswer_settled env (closure p) now reply (state c)).
    exact H'.
  - destruct (render env (state c)); exact H.
Qed.

Lemma run_completed (evs : list event) (c : Config) :
  completed (state c) = true -> completed (state (run env c evs)) = true.
Proof.
  revert c. induction evs as [|ev evs IH]; intros c H; [exact H|].
  simpl. apply IH, step_completed, H.
Qed.

(** What [submitAnswer] sends. *)
Lemma submitAnswer_awaiting (q : Question) (s : State) (req : request) :
  submitAnswer env q s = Awaiting req ->
  exists a,
    answers s !! id q = Some a /\
    whitespace_only a = false /\
    req = PostEvaluateAnswer (bearer env) (sessionId env) (id q) a (timer s).
Proof.
  unfold submitAnswer, get. destruct (answers s !! id q) as [a|]; simpl;
    [|destruct (inherited (id q)); discriminate].
  destruct (whitespace_only a) eqn:Hw.
  - rewrite (trim_whitespace_only a Hw). simpl. rewrite orb_true_r.
    discriminate.
  - destruct (negb (truthy_str a) || negb (truthy_str (trim a)));
      [discriminate|].
    intros H. injection H as <-. eauto.
Qed.

Lemma step_log_evaluations (c : Config) (ev : event) :
  is_nan (timer (state c)) = false ->
  Forall (evaluation_of env qs) (log c) ->
  Forall (evaluation_of env qs) (log (step env c ev)).
Proof.
  intros Ht Hl. unfold step. destruct (left_page c); [exact Hl|].
  destruct ev as [now|value| |k reply now|].
  - exact Hl.
  - destruct (render env (state c)); exact Hl.
  - destruct (render env (state c)) as [| |i n cls q v e|] eqn:Hr;
      try exact Hl.
    apply render_card_question in Hr.
    destruct (submitAnswer env q (state c)) as [effs|req|] eqn:Hs.
    + simpl. apply Forall_app. split; [exact Hl|].
      unfold submitAnswer in Hs.
      destruct (get (answers (state c)) (id q)) as [a| |];
        try discriminate Hs;
        try (injection Hs as <-; repeat constructor).
      destruct (negb (truthy_str a) || negb (truthy_str (trim a)));
        [injection Hs as <-; repeat constructor | discriminate].
    + destruct (submitAnswer_awaiting q _ req Hs) as (a & _ & Hw & ->).
      simpl. apply Forall_app. split; [exact Hl|].
      constructor; [|constructor]. simpl.
      repeat split; auto.
      exists q. split; [|reflexivity].
      unfold currentQuestion in Hr. rewrite env_questions in Hr.
      eapply list_elem_of_lookup_2, Hr.
    + exact Hl.
  - destruct (inflight c !! k) as [p|]; [|exact Hl].
    assert (He : Forall (evaluation_of env qs)
                   (snd (submitAnswer_settled env (closure p) now reply
                           (state c)))).
    { unfold submitAnswer_settled. rewrite env_questions.
      destruct reply as [data|]; [|repeat constructor].
      destruct (Z.of_nat (currentIndex (closure p))
                <? Z.of_nat (length qs) - 1)%Z; repeat constructor. }
    destruct (submitAnswer_settled env (closure p) now reply (state c))
      as [s' effs]. simpl in *. apply Forall_app. auto.
  - destruct (render env (state c)); try exact Hl.
    simpl. apply Forall_app. split; [exact Hl|].
    unfold finishAssessment.
    destruct (4 <=? score (state c))%nat; repeat constructor.
Qed.

Lemma run_log_evaluations (evs : list event) (c : Config) :
  is_nan (timer (state c)) = false ->
  Forall (evaluation_of env qs) (log c) ->
  Forall (evaluation_of env qs) (log (run env c evs)).
Proof.
  revert c. induction evs as [|ev evs IH]; intros c Ht Hl; [exact Hl|].
  simpl. apply IH; [apply step_timer_number, Ht|].
  apply step_log_evaluations; assumption.
Qed.

End AnyVisit.

(** X12: whatever the user, the clock and the network do, in whatever
    order and also with overlapping submissions, the page never renders
    past the end of the list: rendering does not fail, and when there are
    questions the current index is the index of one of them. *)
Theorem X12_render_never_fails
        (env : AssessmentPage.Env) (now : Z)
        (evs : list AssessmentPage.event) :
  let c := AssessmentPage.run env (AssessmentPage.start env now) evs in
  AssessmentPage.render env (AssessmentPage.state c)
    <> AssessmentPage.RenderError /\
  (forall q qs,
      AssessmentPage.questions env = val (q :: qs) ->
      AssessmentPage.currentIndex (AssessmentPage.state c) < length (q :: qs)).
Proof.
  intros c.
  assert (Hrange : forall q qs,
             AssessmentPage.questions env = val (q :: qs) ->
             index_in_range (q :: qs) c).
  { intros q qs Hqs. apply run_index_in_range; [exact Hqs|].
    split; [simpl; lia | constructor]. }
  split.
  - destruct (AssessmentPage.questions env) as [| |[|q qs]] eqn:Hqs.
    + unfold AssessmentPage.render. rewrite Hqs. discriminate.
    + unfold AssessmentPage.render. rewrite Hqs. discriminate.
    + unfold AssessmentPage.render. rewrite Hqs. discriminate.
    + apply (render_in_range env (q :: qs) Hqs).
      exact (proj1 (Hrange q qs eq_refl)).
  - intros q qs Hqs. exact (proj1 (Hrange q qs Hqs)).
Qed.

(** X13: every request the page sends along a visit is an evaluation
    request for a question of the list, with the session id and the token
    of the page, an answer that is not blank and a time taken that is a
    number; this holds for every order of events. *)
Theorem X13_only_well_formed_evaluations
        (env : AssessmentPage.Env) (qs : list Question) (now : Z)
        (evs : list AssessmentPage.event) :
  AssessmentPage.questions env = val qs ->
  Forall (evaluation_of env qs)
         (AssessmentPage.log
            (AssessmentPage.run env (AssessmentPage.start env now) evs)).
Proof.
  intros Hqs. apply run_log_evaluations; [exact Hqs | reflexivity |].
  unfold AssessmentPage.start, AssessmentPage.mount_effect. simpl.
  destruct (AssessmentPage.missing_state env); repeat constructor.
Qed.

Lemma X13_only_well_formed_witness :
  let env := Quiz.two_questions in
  let evs := [AssessmentPage.Change (lit "mitosis"); AssessmentPage.Tick 2500;
              AssessmentPage.Submit] in
  AssessmentPage.questions env
    = val [Quiz.mk_question "q1"; Quiz.mk_question "q2"] /\
  AssessmentPage.log
    (AssessmentPage.run env (AssessmentPage.start env 1000) evs)
  = [Http (PostEvaluateAnswer (val "tok") (val "s1") "q1" (lit "mitosis")
                              num_1_5)] /\
  Forall (evaluation_of env [Quiz.mk_question "q1"; Quiz.mk_question "q2"])
         (AssessmentPage.log
            (AssessmentPage.run env (AssessmentPage.start env 1000) evs)).
Proof.
  intros env evs. split; [reflexivity|].
  split; [vm_compute; reflexivity|].
  exact (X13_only_well_formed_evaluations env _ 1000 evs eq_refl).
Defined.

(** X14: once the session is completed it stays completed: no later
    event, a late response to an overlapping submission included, brings
    the page back from the results card to a question. *)
Theorem X14_completed_is_final
        (env : AssessmentPage.Env) (q : Question) (qs : list Question)
        (now : Z) (pre post : list AssessmentPage.event) :
  AssessmentPage.questions env = val (q :: qs) ->
  AssessmentPage.completed
    (AssessmentPage.state
       (AssessmentPage.run env (AssessmentPage.start env now) pre)) = true ->
  AssessmentPage.completed
    (AssessmentPage.state
       (AssessmentPage.run env (AssessmentPage.start env now)
          (pre ++ post))) = true /\
  exists ic text msg,
    AssessmentPage.render env
      (AssessmentPage.state
         (AssessmentPage.run env (AssessmentPage.start env now)
            (pre ++ post)))
    = AssessmentPage.ResultsCard ic text msg.
Proof.
  intros Hqs Hdone.
  assert (H : AssessmentPage.completed
                (AssessmentPage.state
                   (AssessmentPage.run env (AssessmentPage.start env now)
                      (pre ++ post))) = true).
  { rewrite run_app. apply (run_completed env (q :: qs) Hqs). exact Hdone. }
  split; [exact H|].
  unfold AssessmentPage.render. rewrite Hqs, H. eauto.
Qed.

Lemma X14_completed_is_final_witness :
  let env := Quiz.two_questions in
  let pre := [AssessmentPage.Change (lit "x");
              AssessmentPage.Submit; AssessmentPage.Submit;
              AssessmentPage.Settle 0 (Some (Quiz.verdict true)) 5;
              AssessmentPage.Change (lit "y"); AssessmentPage.Submit;
              AssessmentPage.Settle 1 (Some (Quiz.verdict true)) 6] in
  let post := [AssessmentPage.Settle 0 (Some (Quiz.verdict false)) 7] in
  AssessmentPage.completed
    (AssessmentPage.state
       (AssessmentPage.run env (AssessmentPage.start env 0) pre)) = true /\
  AssessmentPage.completed
    (AssessmentPage.state
       (AssessmentPage.run env (AssessmentPage.start env 0) (pre ++ post)))
  = true.
Proof.
  intros env pre post.
  assert (H : AssessmentPage.completed
                (AssessmentPage.state
                   (AssessmentPage.run env (AssessmentPage.start env 0) pre))
              = true) by (vm_compute; reflexivity).
  split; [exact H|].
  exact (proj1 (X14_completed_is_final env _ _ 0 pre post eq_refl H)).
Defined.

Section InStep.
Import AssessmentPage Quiz.
Variables (env : Env) (qs : list Question).
Hypothesis env_questions : questions env = val qs.

Lemma render_card_open (s : State) i n cls q v e :
  render env s = QuestionCard i n cls q v e ->
  completed s = false /\ currentIndex s < length qs.
Proof.
  intros Hr. pose proof (render_card_question env _ _ _ _ _ _ _ Hr) as Hq.
  unfold render in Hr. rewrite env_questions in Hr.
  destruct qs as [|q0 qs'] eqn:E; [discriminate|].
  destruct (completed s); [discriminate|]. split; [reflexivity|].
  unfold currentQuestion in Hq. rewrite env_questions in Hq.
  apply lookup_lt_Some in Hq. exact Hq.
Qed.

Lemma step_in_step (c : Config) (ev : event) :
  in_step qs c ->
  length (inflight (step env c ev)) <= 1 ->
  in_step qs (step env c ev).
Proof.
  intros Hc Hlen. unfold step in *. destruct (left_page c); [exact Hc|].
  destruct ev as [now|value| |k reply now|].
  - exact Hc.
  - destruct (render env (state c)); exact Hc.
  - destruct (render env (state c)) as [| |i n cls q v e|] eqn:Hr;
      try exact Hc.
    destruct (render_card_open _ _ _ _ _ _ _ Hr) as [Hopen Hidx].
    destruct (submitAnswer env q (state c)) as [effs|req|].
    + exact Hc.
    + destruct Hc as (Ha & He & _ & Hp). simpl in Hlen.
      split; [exact Ha|]. split; [exact He|]. split; [exact Hlen|].
      simpl. apply Forall_app. split; [exact Hp|].
      constructor; [auto|constructor].
    + exact Hc.
  - destruct (inflight c !! k) as [p|] eqn:Hk; [|exact Hc].
    destruct Hc as (Ha & He & Hone & Hp).
    assert (Hall : inflight c = [p] /\ k = 0).
    { destruct (inflight c) as [|p0 [|p1 l]]; simpl in Hone, Hk.
      - destruct k; discriminate Hk.
      - destruct k as [|k]; simpl in Hk; [|destruct k; discriminate Hk].
        injection Hk as ->. auto.
      - lia. }
    destruct Hall as [Hin ->]. rewrite Hin in Hp.
    apply Forall_inv in Hp. destruct Hp as (Hci & Hcr & Hidx & Hopen).
    specialize (Ha Hopen).
    unfold submitAnswer_settled. rewrite env_questions, Hin.
    destruct reply as [data|].
    + rewrite Hci, Hcr.
      destruct (Z.of_nat (currentIndex (state c))
                <? Z.of_nat (length qs) - 1)%Z eqn:Hlast;
        [apply Z.ltb_lt in Hlast | apply Z.ltb_ge in Hlast];
        destruct (is_correct data); unfold in_step; cbn;
        rewrite ?length_app; cbn; rewrite ?Hopen;
        repeat split; try constructor; try lia; try discriminate.
    + unfold in_step. cbn. repeat split; try constructor; auto; lia.
  - destruct (render env (state c)); exact Hc.
Qed.

Lemma run_in_step (evs : list event) (c : Config) :
  in_step qs c ->
  one_at_a_time env c evs = true ->
  in_step qs (run env c evs).
Proof.
  revert c. induction evs as [|ev evs IH]; intros c Hc Hseq; [exact Hc|].
  simpl in Hseq. apply andb_prop in Hseq as [Hlen Hseq].
  apply Nat.leb_le in Hlen.
  simpl. apply IH; [|exact Hseq]. apply step_in_step; assumption.
Qed.

Lemma start_in_step (now : Z) : in_step qs (start env now).
Proof.
  unfold in_step. simpl. repeat split; try constructor; lia.
Qed.

Lemma count_correct_le (l : list EvalResponse) :
  count_correct l <= length l.
Proof.
  induction l as [|r l IH]; simpl; [lia|]. destruct (is_correct r); lia.
Qed.

(** After completion with nothing in flight, the score and the results
    are left alone. *)
Lemma step_after_completion (c : Config) (ev : event) :
  completed (state c) = true ->
  inflight c = [] ->
  completed (state (step env c ev)) = true /\
  inflight (step env c ev) = [] /\
  score (state (step env c ev)) = score (state c) /\
  results (state (step env c ev)) = results (state c).
Proof.
  intros Hdone Hin. unfold step. destruct (left_page c); [auto|].
  destruct ev as [now|value| |k reply now|]; auto.
  - destruct (render env (state c)); auto.
  - destruct (render env (state c)) as [| |i n cls q v e|] eqn:Hr; auto.
    destruct (render_card_open _ _ _ _ _ _ _ Hr) as [Hopen _]. congruence.
  - rewrite Hin. destruct k; auto.
  - destruct (render env (state c)); auto.
Qed.

Lemma run_after_completion (evs : list event) (c : Config) :
  completed (state c) = true ->
  inflight c = [] ->
  score (state (run env c evs)) = score (state c) /\
  results (state (run env c evs)) = results (state c).
Proof.
  revert c. induction evs as [|ev evs IH]; intros c Hdone Hin; [auto|].
  destruct (step_after_completion c ev Hdone Hin) as (Hd & Hi & Hs & Hr).
  destruct (IH _ Hd Hi) as [Hs' Hr'].
  simpl. rewrite Hs', Hr'. auto.
Qed.

End InStep.

(** X15 (pages/AssessmentPage.js, [submitAnswer] and the render).  In a
    visit in which no answer is submitted while another is awaiting its
    evaluation, the score never exceeds the number of results, the
    number of results never exceeds the number of questions, and until
    completion there are as many results as questions passed.  Hence a
    session of fewer than four questions never ends on the check mark:
    the pass mark is the literal 4, whatever the number of questions. *)
Theorem X15_one_at_a_time_bounds
        (env : AssessmentPage.Env) (qs : list Question) (now : Z)
        (evs : list AssessmentPage.event) :
  AssessmentPage.questions env = val qs ->
  Quiz.one_at_a_time env (AssessmentPage.start env now) evs = true ->
  let s := AssessmentPage.state
             (AssessmentPage.run env (AssessmentPage.start env now) evs) in
  AssessmentPage.score s <= length (AssessmentPage.results s) /\
  length (AssessmentPage.results s) <= length qs /\
  (AssessmentPage.completed s = false ->
   length (AssessmentPage.results s) = AssessmentPage.currentIndex s) /\
  (length qs < 4 ->
   forall text msg,
     AssessmentPage.render env s
       <> AssessmentPage.ResultsCard AssessmentPage.CheckCircle text msg).
Proof.
  intros Hqs Hseq. cbv zeta.
  destruct (run_one_at_a_time env evs _ (start_up_to_date env now) Hseq)
    as (_ & Hs & Hr).
  destruct (run_in_step env qs Hqs evs _ (start_in_step env qs now) Hseq)
    as (Ha & He & _ & _).
  set (c := AssessmentPage.run env (AssessmentPage.start env now) evs) in *.
  assert (Hle : AssessmentPage.score (AssessmentPage.state c)
                <= length (AssessmentPage.results (AssessmentPage.state c))).
  { rewrite Hs, Hr. simpl. apply count_correct_le. }
  split; [exact Hle|]. split; [exact He|]. split; [exact Ha|].
  intros Hfew text msg Hrender.
  unfold AssessmentPage.render in Hrender. rewrite Hqs in Hrender.
  destruct qs as [|q0 qs']; [discriminate|].
  destruct (AssessmentPage.completed (AssessmentPage.state c)).
  - destruct (4 <=? AssessmentPage.score (AssessmentPage.state c))%nat
      eqn:Hpass; [|discriminate].
    apply Nat.leb_le in Hpass. lia.
  - destruct (AssessmentPage.currentQuestion env (AssessmentPage.state c));
      discriminate.
Qed.

Lemma X15_one_at_a_time_bounds_witness :
  let s := AssessmentPage.state
             (AssessmentPage.run Quiz.two_questions
                (AssessmentPage.start Quiz.two_questions 0)
                (Quiz.session (lit "x") (Quiz.verdicts [true; true]))) in
  AssessmentPage.score s <= length (AssessmentPage.results s) /\
  length (AssessmentPage.results s) <= 2 /\
  (AssessmentPage.completed s = false ->
   length (AssessmentPage.results s) = AssessmentPage.currentIndex s) /\
  (2 < 4 ->
   forall text msg,
     AssessmentPage.render Quiz.two_questions s
       <> AssessmentPage.ResultsCard AssessmentPage.CheckCircle text msg).
Proof.
  apply (X15_one_at_a_time_bounds Quiz.two_questions
           [Quiz.mk_question "q1"; Quiz.mk_question "q2"] 0
           (Quiz.session (lit "x") (Quiz.verdicts [true; true]))).
  - reflexivity.
  - vm_compute. reflexivity.
Defined.

(** X16 (pages/AssessmentPage.js, [submitAnswer] and the render).  Once
    a visit with one submission at a time has completed, nothing that
    follows changes the score or the results: the results card keeps
    showing the same score. *)
Theorem X16_score_is_final_after_completion
        (env : AssessmentPage.Env) (qs : list Question) (now : Z)
        (pre post : list AssessmentPage.event) :
  AssessmentPage.questions env = val qs ->
  Quiz.one_at_a_time env (AssessmentPage.start env now) pre = true ->
  AssessmentPage.completed
    (AssessmentPage.state
       (AssessmentPage.run env (AssessmentPage.start env now) pre)) = true ->
  AssessmentPage.score
    (AssessmentPage.state
       (AssessmentPage.run env (AssessmentPage.start env now) (pre ++ post)))
  = AssessmentPage.score
      (AssessmentPage.state
         (AssessmentPage.run env (AssessmentPage.start env now) pre)) /\
  AssessmentPage.results
    (AssessmentPage.state
       (AssessmentPage.run env (AssessmentPage.start env now) (pre ++ post)))
  = AssessmentPage.results
      (AssessmentPage.state
         (AssessmentPage.run env (AssessmentPage.start env now) pre)).
Proof.
  intros Hqs Hseq Hdone.
  destruct (run_in_step env qs Hqs pre _ (start_in_step env qs now) Hseq)
    as (_ & _ & _ & Hp).
  rewrite run_app.
  apply (run_after_completion env qs Hqs); [exact Hdone|].
  destruct (AssessmentPage.inflight
              (AssessmentPage.run env (AssessmentPage.start env now) pre))
    as [|p l]; [reflexivity|].
  apply Forall_inv in Hp. destruct Hp as (_ & _ & _ & Hopen). congruence.
Qed.

Lemma X16_score_is_final_witness :
  AssessmentPage.score
    (AssessmentPage.state
       (AssessmentPage.run Quiz.two_questions
          (AssessmentPage.start Quiz.two_questions 0)
          (Quiz.session (lit "x") (Quiz.verdicts [true; false])
           ++ [AssessmentPage.Change (lit "y"); AssessmentPage.Submit;
               AssessmentPage.Settle 0 (Some (Quiz.verdict true)) 9;
               AssessmentPage.Tick 10])))
  = 1.
Proof.
  assert (Hseq : Quiz.one_at_a_time Quiz.two_questions
                   (AssessmentPage.start Quiz.two_questions 0)
                   (Quiz.session (lit "x") (Quiz.verdicts [true; false]))
                 = true) by (vm_compute; reflexivity).
  assert (Hdone : AssessmentPage.completed
                    (AssessmentPage.state
                       (AssessmentPage.run Quiz.two_questions
                          (AssessmentPage.start Quiz.two_questions 0)
                          (Quiz.session (lit "x")
                             (Quiz.verdicts [true; false])))) = true)
    by (vm_compute; reflexivity).
  rewrite (proj1 (X16_score_is_final_after_completion
                    Quiz.two_questions
                    [Quiz.mk_question "q1"; Quiz.mk_question "q2"] 0
                    (Quiz.session (lit "x") (Quiz.verdicts [true; false]))
                    [AssessmentPage.Change (lit "y"); AssessmentPage.Submit;
                     AssessmentPage.Settle 0 (Some (Quiz.verdict true)) 9;
                     AssessmentPage.Tick 10]
                    eq_refl Hseq Hdone)).
  vm_compute. reflexivity.
Defined.

(** With overlapping submissions the score does change after completion:
    the late evaluation of the first question's second submission sets
    it from the render that submission was started from. *)
Example score_changes_after_completion_when_submissions_overlap :
  let pre := [AssessmentPage.Change (lit "x"); AssessmentPage.Submit;
              AssessmentPage.Submit;
              AssessmentPage.Settle 0 (Some (Quiz.verdict true)) 1;
              AssessmentPage.Change (lit "y"); AssessmentPage.Submit;
              AssessmentPage.Settle 1 (Some (Quiz.verdict true)) 2] in
  let post := [AssessmentPage.Settle 0 (Some (Quiz.verdict false)) 3] in
  let c := AssessmentPage.start Quiz.two_questions 0 in
  AssessmentPage.completed
    (AssessmentPage.state (AssessmentPage.run Quiz.two_questions c pre))
  = true /\
  AssessmentPage.score
    (AssessmentPage.state (AssessmentPage.run Quiz.two_questions c pre)) = 2 /\
  length (AssessmentPage.results
    (AssessmentPage.state
       (AssessmentPage.run Quiz.two_questions c (pre ++ post)))) = 1.
Proof.
  vm_compute. auto.
Qed.

Section Typing.
Import AssessmentPage.
Variable env : Env.

Lemma submitAnswer_filled (q : Question) (s : State) (a : jsstring) :
  answers s !! id q = Some a ->
  whitespace_only a = false ->
  submitAnswer env q s =
    Awaiting (PostEvaluateAnswer (bearer env) (sessionId env) (id q) a
                                 (timer s)).
Proof.
  intros Ha Hw. unfold submitAnswer. rewrite (get_own _ _ _ Ha). simpl.
  assert (Ht : trim a <> []).
  { intros E. apply trim_empty_iff in E. congruence. }
  destruct a as [|u a']; [discriminate Hw|].
  destruct (trim (u :: a')) as [|u' t]; [congruence|]. reflexivity.
Qed.

Lemma render_after_change (s : State) (value : jsstring) i n cls q v e :
  render env s = QuestionCard i n cls q v e ->
  render env (handleAnswerChange q value s) = QuestionCard i n cls q value e.
Proof.
  unfold render, handleAnswerChange, timeRatio, expectedTime,
    currentQuestion, shown_value, get.
  destruct (questions env) as [| |[|q0 qs]]; try discriminate.
  simpl. destruct (completed s); [discriminate|].
  destruct ((q0 :: qs) !! currentIndex s) as [q'|]; [|discriminate].
  intros H. injection H as <- <- <- <- _ <-.
  rewrite lookup_insert_eq. reflexivity.
Qed.

End Typing.

(** X17 (pages/AssessmentPage.js, [handleAnswerChange], the inputs of the
    question card and [submitAnswer]).  The input of the question card is
    controlled by [answers]: after a change to [value] the card is the
    same but for the value it passes to its input, which is [value]; the
    answers kept for other question ids are untouched; and when [value]
    is not blank, submitting sends exactly [value], for the id of the
    question shown, with the time the timer shows. *)
Theorem X17_typed_answer_is_shown_and_sent
        (env : AssessmentPage.Env) (c : AssessmentPage.Config)
        (value : jsstring) (i n : nat) (cls : AssessmentPage.timer_class)
        (q : Question) (v : jsstring) (e : number) :
  AssessmentPage.left_page c = false ->
  AssessmentPage.render env (AssessmentPage.state c)
    = AssessmentPage.QuestionCard i n cls q v e ->
  AssessmentPage.render env
    (AssessmentPage.state (AssessmentPage.step env c (AssessmentPage.Change value)))
    = AssessmentPage.QuestionCard i n cls q value e /\
  (forall j, j <> id q ->
     AssessmentPage.answers
       (AssessmentPage.state
          (AssessmentPage.step env c (AssessmentPage.Change value))) !! j
     = AssessmentPage.answers (AssessmentPage.state c) !! j) /\
  (whitespace_only value = false ->
   AssessmentPage.log
     (AssessmentPage.run env c
        [AssessmentPage.Change value; AssessmentPage.Submit])
   = AssessmentPage.log c ++
     [Http (PostEvaluateAnswer (AssessmentPage.bearer env)
              (AssessmentPage.sessionId env) (id q) value
              (AssessmentPage.timer (AssessmentPage.state c)))]).
Proof.
  intros Hleft Hr.
  pose proof (render_after_change env _ value _ _ _ _ _ _ Hr) as Hr'.
  assert (Hstep : AssessmentPage.step env c (AssessmentPage.Change value)
                  = AssessmentPage.with_state
                      (AssessmentPage.handleAnswerChange q value
                         (AssessmentPage.state c)) c).
  { unfold AssessmentPage.step. rewrite Hleft, Hr. reflexivity. }
  rewrite Hstep. split; [exact Hr'|]. split.
  - intros j Hj. simpl. apply lookup_insert_ne. congruence.
  - intros Hw. unfold AssessmentPage.run. simpl fold_left. rewrite Hstep.
    unfold AssessmentPage.step.
    change (AssessmentPage.left_page (AssessmentPage.with_state _ c))
      with (AssessmentPage.left_page c).
    rewrite Hleft.
    change (AssessmentPage.state (AssessmentPage.with_state
              (AssessmentPage.handleAnswerChange q value
                 (AssessmentPage.state c)) c))
      with (AssessmentPage.handleAnswerChange q value
              (AssessmentPage.state c)).
    rewrite Hr'.
    rewrite (submitAnswer_filled env q _ value);
      [reflexivity | apply lookup_insert_eq | exact Hw].
Qed.

Lemma X17_typed_answer_witness :
  AssessmentPage.log
    (AssessmentPage.run Quiz.two_questions
       (AssessmentPage.start Quiz.two_questions 0)
       [AssessmentPage.Change (lit "42"); AssessmentPage.Submit])
  = [Http (PostEvaluateAnswer (val "tok") (val "s1") "q1" (lit "42")
             (num_of_Z 0))].
Proof.
  assert (Hr : AssessmentPage.render Quiz.two_questions
                 (AssessmentPage.state
                    (AssessmentPage.start Quiz.two_questions 0))
               = AssessmentPage.QuestionCard 1 2 AssessmentPage.TimerNormal
                   (Quiz.mk_question "q1") [] num_60)
    by (vm_compute; reflexivity).
  assert (Hw : whitespace_only (lit "42") = false)
    by (vm_compute; reflexivity).
  exact (proj2 (proj2 (X17_typed_answer_is_shown_and_sent
                         Quiz.two_questions
                         (AssessmentPage.start Quiz.two_questions 0)
                         (lit "42") 1 2 AssessmentPage.TimerNormal
                         (Quiz.mk_question "q1") [] num_60
                         eq_refl Hr)) Hw).
Defined.

Section Order.
(** A positive finite pivot, as both thresholds of the timer are. *)
Variables (m0 : positive) (e0 : Z).

Lemma gt_le_trans (a b : number) :
  gt a (S754_finite false m0 e0) = true ->
  le a b = true ->
  gt b (S754_finite false m0 e0) = true.
Proof.
  unfold gt, le, SFltb, SFleb.
  destruct a as [sa|sa| |sa ma ea]; try destruct sa; cbn;
    try discriminate;
    destruct b as [sb|sb| |sb mb eb]; try destruct sb; cbn;
    try discriminate; try reflexivity.
  change (PosDef.Pos.compare_cont Eq) with Pos.compare.
  destruct (Z.compare_spec e0 ea); destruct (Z.compare_spec ea eb);
    destruct (Z.compare_spec e0 eb); try discriminate; try reflexivity;
    try lia;
    destruct (Pos.compare_spec m0 ma); destruct (Pos.compare_spec ma mb);
    destruct (Pos.compare_spec m0 mb); try discriminate; try reflexivity;
    subst; lia.
Qed.

End Order.

(** X18 (pages/AssessmentPage.js, the class of the timer).  The class of
    the timer is monotone in the ratio: when one ratio is at most another
    (so neither is NaN), its class is at most as urgent.  As the ratio
    grows the timer goes from normal to warning to danger and never
    back. *)
Theorem X18_timer_class_is_monotone (a b : number) :
  le a b = true ->
  urgency_rank (AssessmentPage.timerClass a)
  <= urgency_rank (AssessmentPage.timerClass b).
Proof.
  intros H.
  assert (H15 : gt a num_1_5 = true -> gt b num_1_5 = true).
  { unfold num_1_5. intros G. exact (gt_le_trans _ _ a b G H). }
  assert (H1 : gt a num_1 = true -> gt b num_1 = true).
  { unfold num_1. intros G. exact (gt_le_trans _ _ a b G H). }
  unfold AssessmentPage.timerClass.
  destruct (gt a num_1_5).
  - rewrite (H15 eq_refl). apply Nat.le_refl.
  - destruct (gt a num_1).
    + rewrite (H1 eq_refl). destruct (gt b num_1_5); cbn [urgency_rank]; lia.
    + cbn [urgency_rank]. lia.
Qed.

Lemma X18_timer_class_is_monotone_witness :
  urgency_rank (AssessmentPage.timerClass num_1)
  <= urgency_rank (AssessmentPage.timerClass (num_of_Z 2)).
Proof.
  apply X18_timer_class_is_monotone. vm_compute. reflexivity.
Defined.

(** X19 (pages/PerformancePage.js, [fetchData] and the render).  The two
    requests are joined by [Promise.all]: as soon as one of them is
    rejected neither body is kept, whatever the other returned.  The page
    then leaves its loading view for a board of zeros and placeholders:
    every counter shows 0 and every list its placeholder. *)
Theorem X19_failed_fetch_shows_empty_board
        (a : option PerformancePage.Analytics)
        (p : option PerformancePage.Progress) :
  a = None \/ p = None ->
  PerformancePage.render PerformancePage.initial
    = PerformancePage.LoadingAnalytics /\
  PerformancePage.analytics
    (PerformancePage.fetchData_settled (PerformancePage.promise_all a p)
       PerformancePage.initial) = null /\
  PerformancePage.progress
    (PerformancePage.fetchData_settled (PerformancePage.promise_all a p)
       PerformancePage.initial) = null /\
  PerformancePage.render
    (PerformancePage.fetchData_settled (PerformancePage.promise_all a p)
       PerformancePage.initial) = PerformancePage.empty_board.
Proof.
  intros H.
  assert (E : PerformancePage.promise_all a p = None).
  { destruct H as [-> | ->]; [reflexivity|]. destruct a; reflexivity. }
  rewrite E. repeat split; reflexivity.
Qed.

Lemma X19_failed_fetch_witness :
  PerformancePage.render
    (PerformancePage.fetchData_settled
       (PerformancePage.promise_all
          (Some {| PerformancePage.avg_time_per_question := val num_60;
                   PerformancePage.technique_performance := val [];
                   PerformancePage.strengths := val [lit "algebra"];
                   PerformancePage.weaknesses := null |})
          None)
       PerformancePage.initial) = PerformancePage.empty_board.
Proof.
  apply X19_failed_fetch_shows_empty_board. right. reflexivity.
Defined.

(** X20 (pages/AuthPage.js, [handleSubmit]; App.js, [handleLogin] and the
    routes).  Where a settled authentication request leaves the user.
    A fulfilled request sets the cells of the application to the token
    and the user of the response and navigates; the route it navigates
    to shows the dashboard with that user when the token is truthy, and
    sends back to the auth route when the response carried no token,
    although the success toast was shown.  A rejected request reaches
    neither the application nor the router. *)
Theorem X20_where_authentication_lands
        (f : AuthPage.Form) (r : AuthPage.reply) (w : App.World) :
  let effs := snd (AuthPage.handleSubmit_settled f r) in
  let w' := fold_left on_app effs w in
  match r with
  | AuthPage.Fulfilled t u =>
      App.state w' = {| App.token := t; App.user := u |} /\
      existsb is_navigate effs = true /\
      (forall path st,
          In (Navigate path st) effs ->
          App.route (App.state w') path =
            if App.truthy_token t then App.Page "Dashboard" u
            else App.NavigateTo "/auth")
  | AuthPage.Rejected _ =>
      w' = w /\ existsb is_navigate effs = false
  end.
Proof.
  destruct r as [t u|detail]; cbv zeta.
  - split; [reflexivity|]. split; [reflexivity|].
    intros path st Hin. simpl in Hin.
    destruct Hin as [H|[H|[H|[]]]]; try discriminate H.
    injection H as <- _.
    change (App.route {| App.token := t; App.user := u |} "/dashboard"
            = if App.truthy_token t then App.Page "Dashboard" u
              else App.NavigateTo "/auth").
    unfold App.route. simpl.
    destruct (App.truthy_token t); reflexivity.
  - split; reflexivity.
Qed.

(** A response without a token: the success toast is shown and the user
    is back on the auth form. *)
Example signup_without_token_returns_to_the_form :
  let effs := snd (AuthPage.handleSubmit_settled AuthPage.initial
                     (AuthPage.Fulfilled undefined undefined)) in
  let w' := fold_left on_app effs (App.open App.clear) in
  existsb (fun e => match e with
                    | Toast ToastSuccess _ _ => true
                    | _ => false
                    end) effs = true /\
  App.route (App.state w') "/dashboard" = App.NavigateTo "/auth" /\
  App.route (App.state w') "/auth" = App.AuthPage.
Proof.
  vm_compute. auto.
Qed.
